(** * stitch: the forum backend of [server.py]

    A shallow embedding of the FastAPI application in [src/server.py]: the
    three SQLAlchemy tables, the request-scoped database session, the path
    functions, and the response-model step FastAPI runs on what a path
    function returns.

    Modelling conventions.
    - A table is the list of its rows in rowid order.
    - Python integers are [Z]; a [datetime] is a [Z] (a point on the time
      line); strings are [string], the UTF-8 bytes of the text.
    - [datetime.utcnow()] and [uuid4()] are inputs of a request: the clock
      reading [now] (one reading stands for all the readings taken while one
      request is served) and the generated identifier.
    - The engine is SQLite as [create_engine] opens it: primary keys are
      unique, an integer primary key is assigned as the largest one in the
      table plus one, and foreign keys are declared but not checked (no
      [PRAGMA foreign_keys] is issued anywhere in the source).
    - Requests are served one after the other; each runs in its own session.
    - A response model reads an ORM row attribute by attribute
      ([orm_mode]), and the names ["Post"] and ["Document"] that
      [CompleteThread] refers to ahead of their definition are taken as
      resolved. *)

From Stdlib Require Import ZArith List String Bool Lia Permutation Sorted.
Import ListNotations.
Open Scope Z_scope.

Definition datetime := Z.

(** ** Persistence schema *)

Module ThreadDB.
Record t := mk {
  id : Z;
  title : string;
  created_at : datetime;
  updated_at : datetime;
  last_activity : datetime;
  creator : string;
  view_count : Z;
  reply_count : Z
}.
End ThreadDB.

Module PostDB.
Record t := mk {
  id : Z;
  author : string;
  thread_id : Z;
  text : string;
  time : datetime;
  image : option string;
  edited : bool;
  seen : bool;
  view_count : Z;
  last_viewed : option datetime;
  is_initial_post : bool
}.
End PostDB.

(** [content] is [Union[str, List[List[str]]]], kept in a JSON column. *)
Inductive Content :=
| ContentStr (s : string)
| ContentGrid (rows : list (list string)).

Module DocumentDB.
Record t := mk {
  id : string;
  thread_id : Z;
  title : string;
  content : Content;
  type : string;
  created_at : datetime;
  updated_at : datetime;
  last_viewed : option datetime;
  view_count : Z
}.
End DocumentDB.

(** ** Transfer models (request bodies) *)

Module PostCreate.
Record t := mk { text : string; image : option string }.
End PostCreate.

Module DocumentCreate.
Record t := mk {
  title : string;
  thread_id : Z;
  content : Content;
  type : string
}.
End DocumentCreate.

(** A field of a JSON request body, as far as [PostBase] looks at it. *)
Inductive JsonField :=
| Absent
| JsonNull
| JsonStr (s : string).

Record PostBody := { body_text : JsonField; body_image : JsonField }.

(** [PostBase]: [text: str] is required, [image: Optional[str] = None]. *)
Definition PostCreate_of_body (b : PostBody) : option PostCreate.t :=
  match body_text b with
  | JsonStr s =>
      Some (PostCreate.mk s
              match body_image b with
              | JsonStr i => Some i
              | JsonNull | Absent => None
              end)
  | JsonNull | Absent => None
  end.

(** ** The database *)

Record Store := {
  threads : list ThreadDB.t;
  posts : list PostDB.t;
  documents : list DocumentDB.t
}.

Definition empty_store : Store :=
  {| threads := []; posts := []; documents := [] |}.

(** What a request can fail with. *)
Inductive Failure :=
| HTTPException (status_code : Z) (detail : string)
| IntegrityError
| InvalidRequestError
| ResponseValidationError.

Inductive Result (A : Type) :=
| Ok (a : A)
| Raise (e : Failure).
Arguments Ok {A} a.
Arguments Raise {A} e.

(** ** The session

    [get_db] opens a session per request and closes it in [finally]. The
    session works on [pending]; [commit] makes it the database; closing the
    session drops whatever was not committed. *)

Record Session := { committed : Store; pending : Store }.

Definition M (A : Type) : Type := Session -> Result A * Session.

Definition ret {A} (a : A) : M A := fun s => (Ok a, s).

Definition raise {A} (e : Failure) : M A := fun s => (Raise e, s).

Definition bind {A B} (m : M A) (k : A -> M B) : M B :=
  fun s =>
    match m s with
    | (Ok a, s') => k a s'
    | (Raise e, s') => (Raise e, s')
    end.

Notation "x <- m ;; k" := (bind m (fun x => k))
  (at level 61, m at next level, right associativity).
Notation "m ;;; k" := (bind m (fun _ => k))
  (at level 61, right associativity).

Definition open_session (st : Store) : Session :=
  {| committed := st; pending := st |}.

Definition run {A} (h : M A) (st : Store) : Result A * Store :=
  let (r, s) := h (open_session st) in (r, committed s).

Definition commit : M unit :=
  fun s => (Ok tt, {| committed := pending s; pending := pending s |}).

Definition modify (f : Store -> Store) : M unit :=
  fun s => (Ok tt, {| committed := committed s; pending := f (pending s) |}).

Definition query {A} (f : Store -> A) : M A :=
  fun s => (Ok (f (pending s)), s).

(** *** Row-level operations *)

Definition is_thread (i : Z) (r : ThreadDB.t) : bool := ThreadDB.id r =? i.
Definition is_post (i : Z) (r : PostDB.t) : bool := PostDB.id r =? i.
Definition is_document (i : string) (r : DocumentDB.t) : bool :=
  String.eqb (DocumentDB.id r) i.

Definition in_thread_post (i : Z) (r : PostDB.t) : bool :=
  PostDB.thread_id r =? i.
Definition in_thread_document (i : Z) (r : DocumentDB.t) : bool :=
  DocumentDB.thread_id r =? i.

(** [db.query(T).filter(T.id == i).first()] *)
Definition first_thread (i : Z) (st : Store) : option ThreadDB.t :=
  find (is_thread i) (threads st).
Definition first_post (i : Z) (st : Store) : option PostDB.t :=
  find (is_post i) (posts st).
Definition first_document (i : string) (st : Store) : option DocumentDB.t :=
  find (is_document i) (documents st).

(** The integer primary key SQLite gives a new row. *)
Definition next_id (ids : list Z) : Z :=
  match ids with
  | [] => 1
  | i :: rest => fold_left Z.max rest i + 1
  end.

(** [UPDATE ... WHERE id = i]: every row with that key is rewritten. *)
Definition update_where {A} (p : A -> bool) (f : A -> A) (rows : list A)
  : list A :=
  map (fun r => if p r then f r else r) rows.

(** [DELETE ... WHERE ...] *)
Definition delete_where {A} (p : A -> bool) (rows : list A) : list A :=
  filter (fun r => negb (p r)) rows.

Definition set_threads (ts : list ThreadDB.t) (st : Store) : Store :=
  {| threads := ts; posts := posts st; documents := documents st |}.
Definition set_posts (ps : list PostDB.t) (st : Store) : Store :=
  {| threads := threads st; posts := ps; documents := documents st |}.
Definition set_documents (ds : list DocumentDB.t) (st : Store) : Store :=
  {| threads := threads st; posts := posts st; documents := ds |}.

(** [db.add(ThreadDB(title=..., creator=...))] followed by the flush that
    assigns the key and the column defaults. *)
Definition new_thread (title creator : string) (now : datetime) (st : Store)
  : ThreadDB.t :=
  ThreadDB.mk (next_id (map ThreadDB.id (threads st)))
              title now now now creator 0 0.

Definition add_thread (title creator : string) (now : datetime)
  : M ThreadDB.t :=
  row <- query (new_thread title creator now) ;;
  modify (fun st => set_threads (threads st ++ [row]) st) ;;;
  ret row.

(** [db.add(PostDB(thread_id=..., author=..., text=..., image=...,
    is_initial_post=...))] with the column defaults of [PostDB]. *)
Definition new_post (thread_id : Z) (author text : string)
    (image : option string) (is_initial_post : bool) (now : datetime)
    (st : Store) : PostDB.t :=
  PostDB.mk (next_id (map PostDB.id (posts st)))
            author thread_id text now image false false 0 None
            is_initial_post.

Definition add_post (thread_id : Z) (author text : string)
    (image : option string) (is_initial_post : bool) (now : datetime)
  : M PostDB.t :=
  row <- query (new_post thread_id author text image is_initial_post now) ;;
  modify (fun st => set_posts (posts st ++ [row]) st) ;;;
  ret row.

(** [db.add(DocumentDB(id=..., **document.dict()))]; the insert is refused
    when the key is taken. Nothing looks at [thread_id]. *)
Definition new_document (id : string) (document : DocumentCreate.t)
    (now : datetime) : DocumentDB.t :=
  DocumentDB.mk id
                (DocumentCreate.thread_id document)
                (DocumentCreate.title document)
                (DocumentCreate.content document)
                (DocumentCreate.type document)
                now now None 0.

Definition add_document (id : string) (document : DocumentCreate.t)
    (now : datetime) : M DocumentDB.t :=
  taken <- query (fun st => existsb (is_document id) (documents st)) ;;
  if (taken : bool) then raise IntegrityError
  else
    let row := new_document id document now in
    modify (fun st => set_documents (documents st ++ [row]) st) ;;;
    ret row.

(** Attribute assignments on a loaded row reach the table as one [UPDATE]
    on the row's key. [ThreadDB.updated_at] and [DocumentDB.updated_at]
    carry [onupdate=datetime.utcnow]. *)
Definition touch_thread (now : datetime) (r : ThreadDB.t) : ThreadDB.t :=
  ThreadDB.mk (ThreadDB.id r) (ThreadDB.title r) (ThreadDB.created_at r)
              now (ThreadDB.last_activity r) (ThreadDB.creator r)
              (ThreadDB.view_count r) (ThreadDB.reply_count r).

Definition touch_document (now : datetime) (r : DocumentDB.t)
  : DocumentDB.t :=
  DocumentDB.mk (DocumentDB.id r) (DocumentDB.thread_id r)
                (DocumentDB.title r) (DocumentDB.content r)
                (DocumentDB.type r) (DocumentDB.created_at r) now
                (DocumentDB.last_viewed r) (DocumentDB.view_count r).

Definition update_thread (i : Z) (f : ThreadDB.t -> ThreadDB.t) : M unit :=
  modify (fun st => set_threads (update_where (is_thread i) f (threads st)) st).
Definition update_post_row (i : Z) (f : PostDB.t -> PostDB.t) : M unit :=
  modify (fun st => set_posts (update_where (is_post i) f (posts st)) st).
Definition update_document_row (i : string) (f : DocumentDB.t -> DocumentDB.t)
  : M unit :=
  modify (fun st =>
            set_documents (update_where (is_document i) f (documents st)) st).

(** [db.refresh(row)], and the reload of a row whose attributes are read
    after [commit] has expired them. *)
Definition reload {A} (look : Store -> option A) : M A :=
  r <- query look ;;
  match r with
  | Some row => ret row
  | None => raise InvalidRequestError
  end.

(** [db.delete(thread)]: the relationships [posts] and [documents] have
    [cascade="all, delete-orphan"], so the rows of both collections go with
    the thread. *)
Definition delete_thread_cascade (i : Z) : M unit :=
  modify (fun st =>
            {| threads := delete_where (is_thread i) (threads st);
               posts := delete_where (in_thread_post i) (posts st);
               documents :=
                 delete_where (in_thread_document i) (documents st) |}).

(** [ORDER BY]: a stable insertion sort over the rows in table order. *)
Fixpoint insert_by {A} (leb : A -> A -> bool) (x : A) (l : list A) : list A :=
  match l with
  | [] => [x]
  | y :: l' => if leb x y then x :: l else y :: insert_by leb x l'
  end.

Definition order_by {A} (leb : A -> A -> bool) (l : list A) : list A :=
  fold_right (insert_by leb) [] l.

Definition by_time (x y : PostDB.t) : bool :=
  PostDB.time x <=? PostDB.time y.
Definition by_last_activity_desc (x y : ThreadDB.t) : bool :=
  ThreadDB.last_activity y <=? ThreadDB.last_activity x.

(** ** File storage

    The image part of a multipart form: absent, or a file whose copy into
    [UPLOAD_DIR] under a generated name went through or raised. *)
Inductive UploadFile :=
| Saved (unique_filename : string)
| SaveFailed (reason : string).

Definition save_image (image : option UploadFile) : M (option string) :=
  match image with
  | None => ret None
  | Some (Saved unique_filename) =>
      ret (Some ("/uploads/" ++ unique_filename)%string)
  | Some (SaveFailed e) => raise (HTTPException 500 e)
  end.

(** ** Path functions *)

Definition not_found {A} (what : string) : M A :=
  raise (HTTPException 404 (what ++ " not found")%string).

Definition get_threads : M (list ThreadDB.t) :=
  query (fun st => order_by by_last_activity_desc (threads st)).

Definition get_thread (thread_id : Z) (now : datetime) : M ThreadDB.t :=
  thread <- query (first_thread thread_id) ;;
  match thread with
  | None => not_found "Thread"
  | Some thread =>
      update_thread (ThreadDB.id thread)
        (fun r =>
           touch_thread now
             (ThreadDB.mk (ThreadDB.id r) (ThreadDB.title r)
                (ThreadDB.created_at r) (ThreadDB.updated_at r)
                (ThreadDB.last_activity r) (ThreadDB.creator r)
                (ThreadDB.view_count thread + 1) (ThreadDB.reply_count r))) ;;;
      commit ;;;
      reload (first_thread (ThreadDB.id thread))
  end.

Definition create_thread (title creator initial_post : string)
    (image : option UploadFile) (now : datetime) : M ThreadDB.t :=
  image_path <- save_image image ;;
  db_thread <- add_thread title creator now ;;
  db_post <- add_post (ThreadDB.id db_thread) creator initial_post
               image_path true now ;;
  commit ;;;
  reload (first_thread (ThreadDB.id db_thread)).

Definition delete_thread (thread_id : Z) : M string :=
  thread <- query (first_thread thread_id) ;;
  match thread with
  | None => not_found "Thread"
  | Some thread =>
      delete_thread_cascade (ThreadDB.id thread) ;;;
      commit ;;;
      ret "Thread deleted"%string
  end.

(** The two assignments [thread.reply_count += 1] and
    [thread.last_activity = datetime.utcnow()] shared by both post routes. *)
Definition bump_replies (thread : ThreadDB.t) (now : datetime)
    (r : ThreadDB.t) : ThreadDB.t :=
  touch_thread now
    (ThreadDB.mk (ThreadDB.id r) (ThreadDB.title r) (ThreadDB.created_at r)
       (ThreadDB.updated_at r) now (ThreadDB.creator r)
       (ThreadDB.view_count r) (ThreadDB.reply_count thread + 1)).

Definition create_post (thread_id : Z) (text : string)
    (image : option UploadFile) (now : datetime) : M PostDB.t :=
  thread <- query (first_thread thread_id) ;;
  match thread with
  | None => not_found "Thread"
  | Some thread =>
      image_path <- save_image image ;;
      db_post <- add_post thread_id "user" text image_path false now ;;
      update_thread (ThreadDB.id thread) (bump_replies thread now) ;;;
      commit ;;;
      reload (first_post (PostDB.id db_post))
  end.

Definition create_post_json (thread_id : Z) (post : PostCreate.t)
    (now : datetime) : M PostDB.t :=
  thread <- query (first_thread thread_id) ;;
  match thread with
  | None => not_found "Thread"
  | Some thread =>
      db_post <- add_post thread_id "system" (PostCreate.text post)
                   (PostCreate.image post) false now ;;
      update_thread (ThreadDB.id thread) (bump_replies thread now) ;;;
      commit ;;;
      reload (first_post (PostDB.id db_post))
  end.

Definition get_posts (thread_id : Z) : M (list PostDB.t) :=
  query (fun st =>
           order_by by_time (filter (in_thread_post thread_id) (posts st))).

(** [{doc.id: doc for doc in documents}] *)
Fixpoint dict_set {V} (k : string) (v : V) (d : list (string * V))
  : list (string * V) :=
  match d with
  | [] => [(k, v)]
  | (k', v') :: d' =>
      if String.eqb k' k then (k', v) :: d' else (k', v') :: dict_set k v d'
  end.

Definition get_documents (thread_id : Z) : M (list (string * DocumentDB.t)) :=
  query (fun st =>
           fold_left (fun d doc => dict_set (DocumentDB.id doc) doc d)
             (filter (in_thread_document thread_id) (documents st)) []).

Definition upload_file (file : UploadFile) : Result string :=
  match file with
  | Saved unique_filename => Ok ("/uploads/" ++ unique_filename)%string
  | SaveFailed e => Raise (HTTPException 500 e)
  end.

Definition create_document (document : DocumentCreate.t) (uuid4 : string)
    (now : datetime) : M DocumentDB.t :=
  db_document <- add_document uuid4 document now ;;
  commit ;;;
  reload (first_document (DocumentDB.id db_document)).

Definition get_document (doc_id : string) (now : datetime) : M DocumentDB.t :=
  document <- query (first_document doc_id) ;;
  match document with
  | None => not_found "Document"
  | Some document =>
      update_document_row (DocumentDB.id document)
        (fun r =>
           touch_document now
             (DocumentDB.mk (DocumentDB.id r) (DocumentDB.thread_id r)
                (DocumentDB.title r) (DocumentDB.content r)
                (DocumentDB.type r) (DocumentDB.created_at r)
                (DocumentDB.updated_at r) (Some now)
                (DocumentDB.view_count document + 1))) ;;;
      commit ;;;
      reload (first_document (DocumentDB.id document))
  end.

Definition delete_document (doc_id : string) : M string :=
  document <- query (first_document doc_id) ;;
  match document with
  | None => not_found "Document"
  | Some document =>
      modify (fun st =>
                set_documents
                  (delete_where (is_document (DocumentDB.id document))
                     (documents st)) st) ;;;
      commit ;;;
      ret "Document deleted"%string
  end.

Definition Content_eq_dec (a b : Content) : {a = b} + {a <> b}.
Proof.
  decide equality; repeat apply list_eq_dec; apply string_dec.
Defined.

(** [for key, value in document.dict().items(): setattr(db_document, key,
    value)] *)
Definition replace_document (document : DocumentCreate.t) (r : DocumentDB.t)
  : DocumentDB.t :=
  DocumentDB.mk (DocumentDB.id r)
                (DocumentCreate.thread_id document)
                (DocumentCreate.title document)
                (DocumentCreate.content document)
                (DocumentCreate.type document)
                (DocumentDB.created_at r) (DocumentDB.updated_at r)
                (DocumentDB.last_viewed r) (DocumentDB.view_count r).

(** The unit of work issues the [UPDATE], and with it [onupdate], only when
    some assigned column differs from the loaded one. *)
Definition document_differs (document : DocumentCreate.t) (r : DocumentDB.t)
  : bool :=
  negb ((DocumentCreate.thread_id document =? DocumentDB.thread_id r)
        && String.eqb (DocumentCreate.title document) (DocumentDB.title r)
        && (if Content_eq_dec (DocumentCreate.content document)
                 (DocumentDB.content r) then true else false)
        && String.eqb (DocumentCreate.type document) (DocumentDB.type r)).

Definition update_document (doc_id : string) (document : DocumentCreate.t)
    (now : datetime) : M DocumentDB.t :=
  db_document <- query (first_document doc_id) ;;
  match db_document with
  | None => not_found "Document"
  | Some db_document =>
      update_document_row (DocumentDB.id db_document)
        (fun r =>
           if document_differs document db_document
           then touch_document now (replace_document document r)
           else replace_document document r) ;;;
      commit ;;;
      reload (first_document (DocumentDB.id db_document))
  end.

Definition get_post (post_id : Z) (now : datetime) : M PostDB.t :=
  post <- query (first_post post_id) ;;
  match post with
  | None => not_found "Post"
  | Some post =>
      update_post_row (PostDB.id post)
        (fun r =>
           PostDB.mk (PostDB.id r) (PostDB.author r) (PostDB.thread_id r)
             (PostDB.text r) (PostDB.time r) (PostDB.image r)
             (PostDB.edited r) true (PostDB.view_count post + 1)
             (Some now) (PostDB.is_initial_post r)) ;;;
      commit ;;;
      reload (first_post (PostDB.id post))
  end.

(** [for key, value in post_update.dict().items(): setattr(post, key, value)]
    then [post.edited = True]. *)
Definition edit_post (post_update : PostCreate.t) (r : PostDB.t) : PostDB.t :=
  PostDB.mk (PostDB.id r) (PostDB.author r) (PostDB.thread_id r)
    (PostCreate.text post_update) (PostDB.time r)
    (PostCreate.image post_update) true (PostDB.seen r)
    (PostDB.view_count r) (PostDB.last_viewed r) (PostDB.is_initial_post r).

Definition update_post (post_id : Z) (post_update : PostCreate.t)
  : M PostDB.t :=
  post <- query (first_post post_id) ;;
  match post with
  | None => not_found "Post"
  | Some post =>
      update_post_row (PostDB.id post) (edit_post post_update) ;;;
      commit ;;;
      reload (first_post (PostDB.id post))
  end.

Definition delete_post (post_id : Z) : M string :=
  post <- query (first_post post_id) ;;
  match post with
  | None => not_found "Post"
  | Some post =>
      modify (fun st =>
                set_posts (delete_where (is_post (PostDB.id post)) (posts st))
                  st) ;;;
      commit ;;;
      ret "Post deleted"%string
  end.

(** ** Responses

    What a path function returns goes through the [response_model] of its
    decorator. The transfer models [Thread], [Post] and [Document] read, in
    [orm_mode], exactly the columns of the row they are built from, so a
    validated response carries the row; [CompleteThread] also reads the two
    relationships of the thread. A Python list is not a [Post]: it has no
    [text], [id], [thread_id], [author], ... to read, whatever it holds, so
    validation refuses it. The remaining combinations are produced by no
    route; a row of another table lacks required fields of the model and is
    refused as well. *)

Inductive Returned :=
| OrmThread (thread : ThreadDB.t)
| OrmThreads (rows : list ThreadDB.t)
| OrmPost (post : PostDB.t)
| OrmPosts (rows : list PostDB.t)
| OrmDocument (document : DocumentDB.t)
| OrmDocuments (dict : list (string * DocumentDB.t)).

Inductive ResponseModel :=
| Thread
| CompleteThread
| List_Thread
| Post
| Document
| Dict_str_Document.

Inductive Body :=
| JThread (thread : ThreadDB.t)
| JCompleteThread (thread : ThreadDB.t) (posts : list PostDB.t)
    (documents : list DocumentDB.t)
| JThreads (rows : list ThreadDB.t)
| JPost (post : PostDB.t)
| JDocument (document : DocumentDB.t)
| JDocuments (dict : list (string * DocumentDB.t))
| JMessage (message : string)
| JFilename (filename : string).

Definition serialize_response (model : ResponseModel) (content : Returned)
    (db : Store) : Result Body :=
  match model, content with
  | Thread, OrmThread t => Ok (JThread t)
  | CompleteThread, OrmThread t =>
      Ok (JCompleteThread t
            (filter (in_thread_post (ThreadDB.id t)) (posts db))
            (filter (in_thread_document (ThreadDB.id t)) (documents db)))
  | List_Thread, OrmThreads ts => Ok (JThreads ts)
  | Post, OrmPost p => Ok (JPost p)
  | Post, OrmPosts _ => Raise ResponseValidationError
  | Document, OrmDocument d => Ok (JDocument d)
  | Dict_str_Document, OrmDocuments d => Ok (JDocuments d)
  | _, _ => Raise ResponseValidationError
  end.

(** A route with a [response_model]. *)
Definition respond {A} (model : ResponseModel) (wrap : A -> Returned)
    (h : M A) (st : Store) : Result Body * Store :=
  match run h st with
  | (Ok a, st') => (serialize_response model (wrap a) st', st')
  | (Raise e, st') => (Raise e, st')
  end.

(** A route that returns a plain [{"message": ...}]. *)
Definition respond_message (h : M string) (st : Store) : Result Body * Store :=
  match run h st with
  | (Ok m, st') => (Ok (JMessage m), st')
  | (Raise e, st') => (Raise e, st')
  end.

(** ** The application: one constructor per decorated route *)

Inductive Request :=
| GET_threads
| GET_thread (thread_id : Z)
| POST_threads (title creator initial_post : string)
    (image : option UploadFile)
| DELETE_thread (thread_id : Z)
| POST_thread_posts (thread_id : Z) (text : string)
    (image : option UploadFile)
| POST_system_thread_posts (thread_id : Z) (post : PostCreate.t)
| GET_thread_posts (thread_id : Z)
| GET_thread_documents (thread_id : Z)
| POST_upload (file : UploadFile)
| POST_documents (document : DocumentCreate.t) (uuid4 : string)
| GET_document (doc_id : string)
| DELETE_document (doc_id : string)
| PUT_document (doc_id : string) (document : DocumentCreate.t)
| GET_post (post_id : Z)
| PUT_post (post_id : Z) (post_update : PostCreate.t)
| DELETE_post (post_id : Z).

Definition app (now : datetime) (r : Request) (st : Store)
  : Result Body * Store :=
  match r with
  | GET_threads => respond List_Thread OrmThreads get_threads st
  | GET_thread i => respond CompleteThread OrmThread (get_thread i now) st
  | POST_threads title creator initial_post image =>
      respond Thread OrmThread
        (create_thread title creator initial_post image now) st
  | DELETE_thread i => respond_message (delete_thread i) st
  | POST_thread_posts i text image =>
      respond Post OrmPost (create_post i text image now) st
  | POST_system_thread_posts i post =>
      respond Post OrmPost (create_post_json i post now) st
  | GET_thread_posts i => respond Post OrmPosts (get_posts i) st
  | GET_thread_documents i =>
      respond Dict_str_Document OrmDocuments (get_documents i) st
  | POST_upload file =>
      (match upload_file file with
       | Ok f => Ok (JFilename f)
       | Raise e => Raise e
       end, st)
  | POST_documents document uuid4 =>
      respond Document OrmDocument (create_document document uuid4 now) st
  | GET_document i => respond Document OrmDocument (get_document i now) st
  | DELETE_document i => respond_message (delete_document i) st
  | PUT_document i document =>
      respond Document OrmDocument (update_document i document now) st
  | GET_post i => respond Post OrmPost (get_post i now) st
  | PUT_post i post_update =>
      respond Post OrmPost (update_post i post_update) st
  | DELETE_post i => respond_message (delete_post i) st
  end.

(** The database after a sequence of requests, each with its clock reading. *)
Definition serve (rs : list (datetime * Request)) (st : Store) : Store :=
  fold_left (fun s r => snd (app (fst r) (snd r) s)) rs st.

(** ** Predicates on the database used by the statements below *)

(** Primary keys are unique in each table. *)
Definition unique_keys (st : Store) : Prop :=
  NoDup (map ThreadDB.id (threads st))
  /\ NoDup (map PostDB.id (posts st))
  /\ NoDup (map DocumentDB.id (documents st)).

Definition thread_exists (i : Z) (st : Store) : bool :=
  existsb (is_thread i) (threads st).

(** Every post, respectively every document, references a stored thread. *)
Definition posts_reference_threads (st : Store) : Prop :=
  forall p, In p (posts st) -> thread_exists (PostDB.thread_id p) st = true.
Definition documents_reference_threads (st : Store) : Prop :=
  forall d, In d (documents st) ->
            thread_exists (DocumentDB.thread_id d) st = true.

(** No counter of a row present in both databases is lower in the second. *)
Definition counters_le (st st' : Store) : Prop :=
  (forall i t t',
      first_thread i st = Some t -> first_thread i st' = Some t' ->
      ThreadDB.view_count t <= ThreadDB.view_count t'
      /\ ThreadDB.reply_count t <= ThreadDB.reply_count t')
  /\ (forall i p p',
         first_post i st = Some p -> first_post i st' = Some p' ->
         PostDB.view_count p <= PostDB.view_count p')
  /\ (forall i d d',
         first_document i st = Some d -> first_document i st' = Some d' ->
         DocumentDB.view_count d <= DocumentDB.view_count d').

(** The path stored for the image part of a form: [/uploads/<name>] when a
    file came and was saved. *)
Definition image_path_of (image : option UploadFile) : option string :=
  match image with
  | Some (Saved unique_filename) =>
      Some ("/uploads/" ++ unique_filename)%string
  | _ => None
  end.


(** The database is what the requests [rs], none of them served at a clock
    reading later than [now], made of the empty one [init_db] leaves
    ([INITIAL_POSTS] is empty and the document seeding is switched off). *)
Definition served_before (now : datetime) (st : Store) : Prop :=
  exists rs, Forall (fun r => fst r <= now) rs /\ serve rs empty_store = st.


(** Every post of [ps] names a thread of [ts]. *)
Definition refs (ts : list ThreadDB.t) (ps : list PostDB.t) : Prop :=
  Forall (fun p => existsb (is_thread (PostDB.thread_id p)) ts = true) ps.

(** Tables by key: [has_key] is the test [filter(T.id == i)] makes, and
    [table_le] says that a row found under a key in both tables is no lower
    in the second. *)
Definition has_key {A K : Type} (key : A -> K) (eqb : K -> K -> bool) (i : K)
    (r : A) : bool :=
  eqb (key r) i.

Definition table_le {A K : Type} (key : A -> K) (eqb : K -> K -> bool)
    (le : A -> A -> Prop) (l l' : list A) : Prop :=
  forall i a a',
    find (has_key key eqb i) l = Some a ->
    find (has_key key eqb i) l' = Some a' -> le a a'.

Definition thread_le (t t' : ThreadDB.t) : Prop :=
  ThreadDB.view_count t <= ThreadDB.view_count t'
  /\ ThreadDB.reply_count t <= ThreadDB.reply_count t'.
Definition post_le (p p' : PostDB.t) : Prop :=
  PostDB.view_count p <= PostDB.view_count p'.
Definition document_le (d d' : DocumentDB.t) : Prop :=
  DocumentDB.view_count d <= DocumentDB.view_count d'.

(** ** Sample databases *)

(** The database after one thread creation at clock reading 5. *)
Definition forum_hello : Store :=
  serve [(5, POST_threads "Hello" "alice" "First post" None)] empty_store.


(** A thread whose initial post carries an uploaded image. *)
Definition forum_with_image : Store :=
  serve [(5, POST_threads "Hello" "alice" "First post"
               (Some (Saved "cat.png")))] empty_store.

(** A document payload naming a thread nobody created. *)
Definition stray_document : DocumentCreate.t :=
  DocumentCreate.mk "notes" 999999 (ContentStr "see above") "text".

(** The database after a thread and a document attached to it. *)
Definition forum_with_document : Store :=
  serve [(6, POST_documents
               (DocumentCreate.mk "notes" 1 (ContentStr "see above") "text")
               "doc-1")] forum_hello.

(** A 2 x 3 grid of strings. *)
Definition grid_2x3 : list (list string) :=
  [["a"; "b"; "c"]; ["d"; "e"; "f"]]%string.

Definition grid_document : DocumentCreate.t :=
  DocumentCreate.mk "table" 1 (ContentGrid grid_2x3) "grid".

(** ** Further predicates and the startup seeding *)

(** Columns that are written when a row is inserted and by no route after. *)
Definition thread_fixed (t t' : ThreadDB.t) : Prop :=
  ThreadDB.title t' = ThreadDB.title t
  /\ ThreadDB.creator t' = ThreadDB.creator t
  /\ ThreadDB.created_at t' = ThreadDB.created_at t.
Definition post_fixed (p p' : PostDB.t) : Prop :=
  PostDB.author p' = PostDB.author p
  /\ PostDB.thread_id p' = PostDB.thread_id p
  /\ PostDB.time p' = PostDB.time p
  /\ PostDB.is_initial_post p' = PostDB.is_initial_post p.
Definition document_fixed (d d' : DocumentDB.t) : Prop :=
  DocumentDB.created_at d' = DocumentDB.created_at d.

Definition fixed_columns (st st' : Store) : Prop :=
  (forall i t t',
      first_thread i st = Some t -> first_thread i st' = Some t' ->
      thread_fixed t t')
  /\ (forall i p p',
         first_post i st = Some p -> first_post i st' = Some p' ->
         post_fixed p p')
  /\ (forall i d d',
         first_document i st = Some d -> first_document i st' = Some d' ->
         document_fixed d d').

(** The number of rows of a table that pass a test. *)
Definition tally {A} (q : A -> bool) (rows : list A) : Z :=
  Z.of_nat (List.length (filter q rows)).

Definition reply_in (i : Z) (p : PostDB.t) : bool :=
  in_thread_post i p && negb (PostDB.is_initial_post p).
Definition initial_in (i : Z) (p : PostDB.t) : bool :=
  in_thread_post i p && PostDB.is_initial_post p.

(** Every thread row counts its replies and has one initial post. *)
Definition acct (ts : list ThreadDB.t) (ps : list PostDB.t) : Prop :=
  forall t, In t ts ->
            ThreadDB.reply_count t = tally (reply_in (ThreadDB.id t)) ps
            /\ tally (initial_in (ThreadDB.id t)) ps = 1.

Definition threads_account_for_posts (st : Store) : Prop :=
  posts_reference_threads st /\ acct (threads st) (posts st).

Definition is_delete_post (r : Request) : bool :=
  match r with
  | DELETE_post _ => true
  | _ => false
  end.

(** An entry of [INITIAL_POSTS]: the keyword arguments it hands to [PostDB]
    next to [thread_id] and [is_initial_post]; the other columns take their
    defaults. *)
Module post_data.
Record t := mk { text : string; author : string; image : option string }.
End post_data.

(** A [str] is text; the [string] of the model holds its UTF-8 bytes. [len]
    and slicing count code points: a code point starts at every byte that is
    not a continuation byte [10xxxxxx]. *)
Definition is_continuation (c : Ascii.ascii) : bool :=
  match c with
  | Ascii.Ascii _ _ _ _ _ _ b6 b7 => b7 && negb b6
  end.

(** [len(text)] *)
Fixpoint code_points (text : string) : nat :=
  match text with
  | EmptyString => 0
  | String c rest =>
      ((if is_continuation c then 0 else 1) + code_points rest)%nat
  end.

(** [text[:n]] *)
Fixpoint first_code_points (n : nat) (text : string) : string :=
  match text with
  | EmptyString => EmptyString
  | String c rest =>
      if is_continuation c then String c (first_code_points n rest)
      else match n with
           | O => EmptyString
           | S n' => String c (first_code_points n' rest)
           end
  end.

(** [post_data["text"][:50] + "..." if len(post_data["text"]) > 50 else
    post_data["text"]] *)
Definition seed_title (text : string) : string :=
  if (50 <? code_points text)%nat
  then (first_code_points 50 text ++ "...")%string
  else text.



Definition seed (now : datetime) (post_data : post_data.t) : M unit :=
  thread <- add_thread (seed_title (post_data.text post_data)) "system" now ;;
  db_post <- add_post (ThreadDB.id thread) (post_data.author post_data)
               (post_data.text post_data) (post_data.image post_data) true
               now ;;
  ret tt.

Fixpoint seed_each (now : datetime) (l : list post_data.t) : M unit :=
  match l with
  | [] => ret tt
  | post_data :: rest => seed now post_data ;;; seed_each now rest
  end.

(** [init_db] on an existing schema, for a seed list [INITIAL_POSTS]; the
    document seeding sits under [if False:] and never runs. The source ships
    [INITIAL_POSTS = []]. *)
Definition init_db (INITIAL_POSTS : list post_data.t) (now : datetime)
    (st : Store) : Store :=
  snd (run (n_threads <- query (fun db => List.length (threads db)) ;;
            n_posts <- query (fun db => List.length (posts db)) ;;
            (if ((n_threads =? 0) && (n_posts =? 0))%nat
             then seed_each now INITIAL_POSTS
             else ret tt) ;;;
            commit) st).

Definition INITIAL_POSTS : list post_data.t := [].

(** ** Lists as tables *)

Section Tables.
Context {A : Type}.
Implicit Types (p q : A -> bool) (l : list A).

Lemma find_map_stable q (g : A -> A) l :
  (forall r, q (g r) = q r) ->
  find q (map g l) = option_map g (find q l).
Proof.
  intros Hg. induction l as [|a l IH]; simpl; [reflexivity|].
  rewrite Hg. destruct (q a); [reflexivity | exact IH].
Qed.

Lemma find_app_found q l l' t :
  find q l = Some t -> find q (l ++ l') = Some t.
Proof.
  induction l as [|a l IH]; simpl; [discriminate|].
  destruct (q a); auto.
Qed.

Lemma find_app_missing q l l' :
  find q l = None -> find q (l ++ l') = find q l'.
Proof.
  induction l as [|a l IH]; simpl; [reflexivity|].
  destruct (q a); [discriminate | exact IH].
Qed.

Lemma find_filter_kept q (g : A -> bool) l :
  (forall r, q r = true -> g r = true) ->
  find q (filter g l) = find q l.
Proof.
  intros Hk. induction l as [|a l IH]; simpl; [reflexivity|].
  destruct (g a) eqn:Ga; simpl.
  - destruct (q a); [reflexivity | exact IH].
  - destruct (q a) eqn:Qa; [|exact IH].
    apply Hk in Qa. congruence.
Qed.

Lemma find_delete_where p l : find p (delete_where p l) = None.
Proof.
  unfold delete_where.
  induction l as [|a l IH]; simpl; [reflexivity|].
  destruct (p a) eqn:Pa; simpl; [exact IH|].
  rewrite Pa. exact IH.
Qed.

Lemma find_some_existsb p l t : find p l = Some t -> existsb p l = true.
Proof.
  intros H. apply find_some in H. apply existsb_exists.
  exists t. exact H.
Qed.
End Tables.

Lemma fold_left_max_bounds (l : list Z) (a : Z) :
  a <= fold_left Z.max l a /\ (forall x, In x l -> x <= fold_left Z.max l a).
Proof.
  revert a. induction l as [|b l IH]; intros a; simpl.
  - split; [lia | contradiction].
  - destruct (IH (Z.max a b)) as [H1 H2]. split; [lia|].
    intros x [<- | Hx]; [lia | auto].
Qed.

Lemma next_id_above(ids : list Z) (i : Z) : In i ids -> i < next_id ids.
Proof.
  destruct ids as [|a rest]; simpl; [contradiction|].
  destruct (fold_left_max_bounds rest a) as [H1 H2].
  intros [<- | Hi]; [lia | specialize (H2 _ Hi); lia].
Qed.

Lemma next_thread_id_fresh (ts : list ThreadDB.t) :
  find (is_thread (next_id (map ThreadDB.id ts))) ts = None.
Proof.
  destruct (find _ ts) as [t|] eqn:E; [|reflexivity].
  apply find_some in E. destruct E as [Hin Hid].
  unfold is_thread in Hid. apply Z.eqb_eq in Hid.
  apply (in_map ThreadDB.id) in Hin. apply next_id_above in Hin. lia.
Qed.

Lemma next_post_id_fresh (ps : list PostDB.t) :
  find (is_post (next_id (map PostDB.id ps))) ps = None.
Proof.
  destruct (find _ ps) as [t|] eqn:E; [|reflexivity].
  apply find_some in E. destruct E as [Hin Hid].
  unfold is_post in Hid. apply Z.eqb_eq in Hid.
  apply (in_map PostDB.id) in Hin. apply next_id_above in Hin. lia.
Qed.

Lemma first_thread_id i st t : first_thread i st = Some t -> ThreadDB.id t = i.
Proof.
  intros H. apply find_some in H. destruct H as [_ H].
  now apply Z.eqb_eq in H.
Qed.

Lemma first_post_id i st p : first_post i st = Some p -> PostDB.id p = i.
Proof.
  intros H. apply find_some in H. destruct H as [_ H].
  now apply Z.eqb_eq in H.
Qed.

Lemma first_document_id i st d :
  first_document i st = Some d -> DocumentDB.id d = i.
Proof.
  intros H. apply find_some in H. destruct H as [_ H].
  now apply String.eqb_eq in H.
Qed.

(** A row the lookup finds is in the table under that key, and when the
    lookup finds nothing no row of the table has the key. *)
Lemma found_thread_is_stored i st t :
  first_thread i st = Some t -> In t (threads st) /\ ThreadDB.id t = i.
Proof.
  intros E. split; [|now apply first_thread_id in E].
  apply find_some in E. tauto.
Qed.

Lemma found_post_is_stored i st p :
  first_post i st = Some p -> In p (posts st) /\ PostDB.id p = i.
Proof.
  intros E. split; [|now apply first_post_id in E].
  apply find_some in E. tauto.
Qed.

Lemma found_document_is_stored i st d :
  first_document i st = Some d ->
  In d (documents st) /\ DocumentDB.id d = i.
Proof.
  intros E. split; [|now apply first_document_id in E].
  apply find_some in E. tauto.
Qed.

Lemma missing_thread_is_absent i st :
  first_thread i st = None ->
  forall t, In t (threads st) -> ThreadDB.id t <> i.
Proof.
  intros E t Hin Hid. pose proof (find_none _ _ E t Hin) as N.
  unfold is_thread in N. apply Z.eqb_neq in N. contradiction.
Qed.

Lemma missing_post_is_absent i st :
  first_post i st = None -> forall p, In p (posts st) -> PostDB.id p <> i.
Proof.
  intros E p Hin Hid. pose proof (find_none _ _ E p Hin) as N.
  unfold is_post in N. apply Z.eqb_neq in N. contradiction.
Qed.

Lemma missing_document_is_absent i st :
  first_document i st = None ->
  forall d, In d (documents st) -> DocumentDB.id d <> i.
Proof.
  intros E d Hin Hid. pose proof (find_none _ _ E d Hin) as N.
  unfold is_document in N. apply String.eqb_neq in N. contradiction.
Qed.

(** ** Thread creation *)

(** Unfolds the session monad and the path functions down to the tables. *)
Ltac unfold_route :=
  cbv beta iota zeta delta
    [app respond respond_message run open_session bind query modify commit
     reload ret raise not_found
     add_thread add_post add_document update_thread update_post_row
     update_document_row delete_thread_cascade save_image
     get_threads get_thread create_thread delete_thread create_post
     create_post_json get_posts get_documents create_document get_document
     delete_document update_document get_post update_post delete_post
     first_thread first_post first_document
     set_threads set_posts set_documents];
  cbn [threads posts documents committed pending].

(** C1: a thread-creation request whose image (if any) is saved answers with
    the created Thread, whose reply_count is 0, and leaves the database with
    exactly one more thread row and exactly one more post row, both made
    durable by the one commit; that post has is_initial_post = true, the new
    thread's id as thread_id, initial_post as text and the supplied creator as
    author. A request whose image cannot be saved inserts nothing. *)
Theorem create_thread_inserts_thread_and_initial_post
    (title creator initial_post : string) (image : option UploadFile)
    (now : datetime) (st : Store) :
  match image with
  | Some (SaveFailed e) =>
      app now (POST_threads title creator initial_post image) st
      = (Raise (HTTPException 500 e), st)
  | _ =>
      exists db_thread db_post,
        app now (POST_threads title creator initial_post image) st
        = (Ok (JThread db_thread),
           {| threads := threads st ++ [db_thread];
              posts := posts st ++ [db_post];
              documents := documents st |})
        /\ first_thread (ThreadDB.id db_thread) st = None
        /\ first_post (PostDB.id db_post) st = None
        /\ ThreadDB.title db_thread = title
        /\ ThreadDB.creator db_thread = creator
        /\ ThreadDB.reply_count db_thread = 0
        /\ PostDB.is_initial_post db_post = true
        /\ PostDB.thread_id db_post = ThreadDB.id db_thread
        /\ PostDB.text db_post = initial_post
        /\ PostDB.author db_post = creator
        /\ PostDB.image db_post = image_path_of image
  end.
Proof.
  assert (Hok : forall image_path,
             exists db_thread db_post,
               run (db_thread <- add_thread title creator now ;;
                    db_post <- add_post (ThreadDB.id db_thread) creator
                                 initial_post image_path true now ;;
                    commit ;;;
                    reload (first_thread (ThreadDB.id db_thread))) st
               = (Ok db_thread,
                  {| threads := threads st ++ [db_thread];
                     posts := posts st ++ [db_post];
                     documents := documents st |})
               /\ first_thread (ThreadDB.id db_thread) st = None
               /\ first_post (PostDB.id db_post) st = None
               /\ ThreadDB.title db_thread = title
               /\ ThreadDB.creator db_thread = creator
               /\ ThreadDB.reply_count db_thread = 0
               /\ PostDB.is_initial_post db_post = true
               /\ PostDB.thread_id db_post = ThreadDB.id db_thread
               /\ PostDB.text db_post = initial_post
               /\ PostDB.author db_post = creator
               /\ PostDB.image db_post = image_path).
  { intros image_path.
    exists (new_thread title creator now st).
    exists (new_post (ThreadDB.id (new_thread title creator now st)) creator
              initial_post image_path true now st).
    split;
      [|repeat split; solve [apply next_thread_id_fresh
                            | apply next_post_id_fresh]].
    unfold_route.
    rewrite (find_app_missing _ _ _ (next_thread_id_fresh (threads st))).
    simpl. unfold is_thread at 1; simpl. rewrite Z.eqb_refl. reflexivity. }
  destruct image as [[unique_filename | e]|]; simpl.
  - destruct (Hok (Some ("/uploads/" ++ unique_filename)%string))
      as (t & p & Hrun & Hrest).
    exists t, p. split; [|exact Hrest].
    unfold app, respond, create_thread, save_image.
    unfold run in *. unfold bind at 1. unfold ret at 1. rewrite Hrun.
    reflexivity.
  - reflexivity.
  - destruct (Hok None) as (t & p & Hrun & Hrest).
    exists t, p. split; [|exact Hrest].
    unfold app, respond, create_thread, save_image.
    unfold run in *. unfold bind at 1. unfold ret at 1. rewrite Hrun.
    reflexivity.
Qed.

(** ** Thread deletion *)

Lemma delete_where_In {A} (p : A -> bool) (l : list A) (x : A) :
  In x (delete_where p l) <-> In x l /\ p x = false.
Proof.
  unfold delete_where. rewrite filter_In, negb_true_iff. reflexivity.
Qed.

(** C2: deleting an existing thread answers with the confirmation and leaves
    a database without that thread, without any post and without any document
    whose thread_id is the deleted id, every other row being kept; all of it
    is one commit. Deleting an id that is not stored fails with 404 "Thread
    not found" and leaves the database as it was. *)
Theorem delete_thread_removes_posts_and_documents (now : datetime) (thread_id : Z) (st : Store) :
  ((exists row, In row (threads st) /\ ThreadDB.id row = thread_id) ->
   exists thread,
     In thread (threads st)
     /\ ThreadDB.id thread = thread_id
     /\ first_thread thread_id st = Some thread
     /\ (
      exists st',
        app now (DELETE_thread thread_id) st
        = (Ok (JMessage "Thread deleted"), st')
        /\ first_thread thread_id st' = None
        /\ (forall t, In t (threads st') <->
                      In t (threads st) /\ ThreadDB.id t <> thread_id)
        /\ (forall p, In p (posts st') <->
                      In p (posts st) /\ PostDB.thread_id p <> thread_id)
        /\ (forall d, In d (documents st') <->
                      In d (documents st)
                      /\ DocumentDB.thread_id d <> thread_id)))
  /\ ((forall row, In row (threads st) -> ThreadDB.id row <> thread_id) ->
    app now (DELETE_thread thread_id) st
    = (Raise (HTTPException 404 "Thread not found"), st)).
Proof.
  destruct (first_thread thread_id st) as [thread|] eqn:E.
  - destruct (found_thread_is_stored _ _ _ E) as [Hstored Hkey].
    split; [intros _ | intros Habs; now elim (Habs thread Hstored)].
    exists thread. split; [exact Hstored|]. split; [exact Hkey|].
    split; [reflexivity|]. clear Hstored Hkey.
    pose proof (first_thread_id _ _ _ E) as Hid.
    eexists. split.
    + unfold_route. unfold first_thread in E. rewrite E. rewrite Hid.
      reflexivity.
    + unfold first_thread; cbn [threads posts documents committed pending].
      split; [apply find_delete_where|].
      split; [|split]; intros x; rewrite delete_where_In;
        unfold is_thread, in_thread_post, in_thread_document;
        rewrite Z.eqb_neq; reflexivity.
  - split;
      [intros (row & Hrow & Hkey); now elim (missing_thread_is_absent _ _ E row)
      | intros _].
    unfold_route. unfold first_thread in E. rewrite E. reflexivity.
Qed.

(** ** Thread fetch *)

Lemma is_thread_other i j r : ThreadDB.id r = i -> j <> i -> is_thread j r = false.
Proof. intros <- H. unfold is_thread. apply Z.eqb_neq. congruence. Qed.




(** ** Post creation *)

(** Splits a route into the cases its lookups and its upload can take. *)
Ltac route_cases :=
  unfold_route;
  repeat match goal with
         | |- context [match ?x with _ => _ end] =>
             lazymatch type of x with
             | option _ => idtac
             | bool => idtac
             | UploadFile => idtac
             | Result _ => idtac
             end;
             destruct x eqn:?; unfold_route
         end.

Lemma Forall_update_where {A} (P : A -> Prop) (p : A -> bool) (f : A -> A)
    (l : list A) :
  (forall r, P r -> p r = true -> P (f r)) ->
  Forall P l -> Forall P (update_where p f l).
Proof.
  intros Hf H. unfold update_where. induction H as [|a l Ha Hl IH]; simpl.
  - constructor.
  - constructor; [|exact IH]. destruct (p a) eqn:Pa; auto.
Qed.

Lemma Forall_delete_where {A} (P : A -> Prop) (p : A -> bool) (l : list A) :
  Forall P l -> Forall P (delete_where p l).
Proof.
  intros H. apply Forall_forall. intros x Hx.
  apply delete_where_In in Hx. destruct Hx as [Hx _].
  revert x Hx. now apply Forall_forall.
Qed.







(** ** Referential integrity *)

Section References.
Implicit Types (ts : list ThreadDB.t) (ps : list PostDB.t).

Lemma existsb_update_thread i j (f : ThreadDB.t -> ThreadDB.t) ts :
  (forall r, ThreadDB.id (f r) = ThreadDB.id r) ->
  existsb (is_thread j) (update_where (is_thread i) f ts)
  = existsb (is_thread j) ts.
Proof.
  intros Hf. unfold update_where.
  induction ts as [|a ts IH]; simpl; [reflexivity|].
  rewrite IH. f_equal.
  destruct (is_thread i a); [|reflexivity].
  unfold is_thread. now rewrite Hf.
Qed.

Lemma existsb_delete_other_thread i j ts :
  j <> i ->
  existsb (is_thread j) (delete_where (is_thread i) ts)
  = existsb (is_thread j) ts.
Proof.
  intros Hji. unfold delete_where.
  induction ts as [|a ts IH]; simpl; [reflexivity|].
  destruct (is_thread i a) eqn:Ia; simpl; rewrite IH; [|reflexivity].
  unfold is_thread in Ia. apply Z.eqb_eq in Ia.
  now rewrite (is_thread_other i j a Ia Hji).
Qed.

Lemma refs_update_threads i (f : ThreadDB.t -> ThreadDB.t) ts ps :
  (forall r, ThreadDB.id (f r) = ThreadDB.id r) ->
  refs ts ps -> refs (update_where (is_thread i) f ts) ps.
Proof.
  intros Hf H. unfold refs in *. rewrite Forall_forall in *.
  intros p Hp. rewrite existsb_update_thread by exact Hf. auto.
Qed.

Lemma refs_more_threads ts ts' ps : refs ts ps -> refs (ts ++ ts') ps.
Proof.
  unfold refs. rewrite !Forall_forall. intros H p Hp.
  rewrite existsb_app, (H p Hp). reflexivity.
Qed.

Lemma refs_cascade i ts ps :
  refs ts ps ->
  refs (delete_where (is_thread i) ts) (delete_where (in_thread_post i) ps).
Proof.
  unfold refs. rewrite !Forall_forall. intros H p Hp.
  apply delete_where_In in Hp. destruct Hp as [Hp Hi].
  unfold in_thread_post in Hi. apply Z.eqb_neq in Hi.
  rewrite existsb_delete_other_thread by exact Hi. auto.
Qed.

Lemma refs_update_posts (q : PostDB.t -> bool) (f : PostDB.t -> PostDB.t)
    ts ps :
  (forall r, PostDB.thread_id (f r) = PostDB.thread_id r) ->
  refs ts ps -> refs ts (update_where q f ps).
Proof.
  intros Hf. apply Forall_update_where. intros r Hr _. now rewrite Hf.
Qed.

Lemma refs_add_post ts ps p :
  existsb (is_thread (PostDB.thread_id p)) ts = true ->
  refs ts ps -> refs ts (ps ++ [p]).
Proof.
  intros Hp H. apply Forall_app. split; [exact H|]. now constructor.
Qed.
End References.

Lemma posts_reference_threads_refs (st : Store) :
  posts_reference_threads st <-> refs (threads st) (posts st).
Proof.
  unfold posts_reference_threads, refs, thread_exists.
  now rewrite Forall_forall.
Qed.

(** The half of referential integrity the path functions keep: no request
    leaves a post without its thread. *)
Lemma app_keeps_posts_referencing (now : datetime) (r : Request) (st : Store) :
  posts_reference_threads st ->
  posts_reference_threads (snd (app now r st)).
Proof.
  rewrite !posts_reference_threads_refs. intros H.
  destruct r; route_cases; cbn [snd threads posts]; try exact H.
  all: repeat match goal with
              | E : find (is_thread _) _ = Some _ |- _ =>
                  pose proof (find_some_existsb _ _ _ E);
                  pose proof (first_thread_id _ {| threads := _; posts := [];
                                                   documents := [] |} _ E);
                  clear E
              end.
  all: cbn [ThreadDB.id] in *; subst.
  all: try (apply refs_update_threads; [reflexivity | exact H]).
  all: try (apply refs_cascade; exact H).
  all: try (apply refs_update_posts; [reflexivity | exact H]).
  all: try (apply Forall_delete_where; exact H).
  all: try (apply refs_add_post;
            [|apply refs_update_threads; [reflexivity | exact H]];
            rewrite existsb_update_thread by reflexivity; assumption).
  all: try (apply refs_add_post; [|apply refs_more_threads; exact H];
            rewrite existsb_app; simpl; unfold is_thread; simpl;
            rewrite Z.eqb_refl; apply orb_true_iff; right; reflexivity).
Qed.

(** C5: the document routes do not keep referential integrity. Creating a
    document whose thread_id names no stored thread succeeds and stores it,
    and a full replace moves a document that had a thread onto an id that
    names none; in both resulting databases a document references a thread
    that does not exist. *)
Theorem document_routes_leave_orphans :
  (exists d st',
      app 0 (POST_documents stray_document "doc-1") empty_store
      = (Ok (JDocument d), st')
      /\ In d (documents st')
      /\ thread_exists (DocumentDB.thread_id d) st' = false
      /\ ~ documents_reference_threads st')
  /\ (documents_reference_threads forum_with_document
      /\ exists d st',
          app 8 (PUT_document "doc-1" stray_document) forum_with_document
          = (Ok (JDocument d), st')
          /\ In d (documents st')
          /\ thread_exists (DocumentDB.thread_id d) st' = false
          /\ ~ documents_reference_threads st').
Proof.
  split; [|split].
  - eexists. eexists. split; [reflexivity|].
    split; [left; reflexivity|]. split; [reflexivity|].
    intros H. specialize (H _ (or_introl eq_refl)). discriminate H.
  - intros d [<- | []]. reflexivity.
  - eexists. eexists. split; [reflexivity|].
    split; [left; reflexivity|]. split; [reflexivity|].
    intros H. specialize (H _ (or_introl eq_refl)). discriminate H.
Qed.

(** ** Listing the posts of a thread *)

Section OrderBy.
Context {A : Type} (key : A -> Z).
Let leb (x y : A) : bool := key x <=? key y.
Let le (x y : A) : Prop := key x <= key y.




End OrderBy.


(** C6: the route that lists the posts of a thread never answers with a
    list. Its decorator names [Post], one post, as the response model, while
    the path function returns the list of rows; the list (the empty one as
    well) fails response validation, for every thread id and every
    database. *)
Theorem get_posts_route_fails (now : datetime) (thread_id : Z) (st : Store) :
  app now (GET_thread_posts thread_id) st = (Raise ResponseValidationError, st)
  /\ app 9 (GET_thread_posts 1) forum_hello
     = (Raise ResponseValidationError, forum_hello)
  /\ app 9 (GET_thread_posts 999999) empty_store
     = (Raise ResponseValidationError, empty_store).
Proof.
  split; [|split]; reflexivity.
Qed.

(** ** Post update *)

Lemma find_update_where_same {A} (p : A -> bool) (f : A -> A) (l : list A) :
  (forall r, p (f r) = p r) ->
  find p (update_where p f l) = option_map f (find p l).
Proof.
  intros Hf. induction l as [|a l IH]; simpl; [reflexivity|].
  destruct (p a) eqn:Pa.
  - rewrite Hf, Pa. reflexivity.
  - rewrite Pa. exact IH.
Qed.

Lemma find_update_where_other {A} (p q : A -> bool) (f : A -> A)
    (l : list A) :
  (forall r, p r = true -> q r = false /\ q (f r) = false) ->
  find q (update_where p f l) = find q l.
Proof.
  intros Hf. induction l as [|a l IH]; simpl; [reflexivity|].
  destruct (p a) eqn:Pa.
  - destruct (Hf a Pa) as [-> ->]. exact IH.
  - destruct (q a); [reflexivity | exact IH].
Qed.

Lemma update_post_run (now : datetime) (post_id : Z)
    (post_update : PostCreate.t) (st : Store) (post : PostDB.t) :
  first_post post_id st = Some post ->
  app now (PUT_post post_id post_update) st
  = (Ok (JPost (edit_post post_update post)),
     set_posts (update_where (is_post post_id) (edit_post post_update)
                  (posts st)) st).
Proof.
  intros E. pose proof (first_post_id _ _ _ E) as Hid.
  unfold first_post in E.
  unfold_route. rewrite E. unfold_route. rewrite Hid.
  rewrite find_update_where_same by reflexivity.
  rewrite E. reflexivity.
Qed.

(** C7: updating a stored post answers with the post carrying the payload's
    text and image and edited = true, and stores it so, whatever the stored
    values were (there is no comparison with them); threads, documents and
    the other posts stay as they were. Updating an id that is not stored
    fails with 404 "Post not found" and changes nothing. *)
Theorem update_post_overwrites_and_marks_edited (now : datetime) (post_id : Z)
    (post_update : PostCreate.t) (st : Store) :
  ((exists row, In row (posts st) /\ PostDB.id row = post_id) ->
   exists post,
     In post (posts st)
     /\ PostDB.id post = post_id
     /\ first_post post_id st = Some post
     /\ (
      exists post' st',
        app now (PUT_post post_id post_update) st = (Ok (JPost post'), st')
        /\ first_post post_id st' = Some post'
        /\ PostDB.text post' = PostCreate.text post_update
        /\ PostDB.image post' = PostCreate.image post_update
        /\ PostDB.edited post' = true
        /\ threads st' = threads st
        /\ documents st' = documents st
        /\ (forall j, j <> post_id -> first_post j st' = first_post j st)))
  /\ ((forall row, In row (posts st) -> PostDB.id row <> post_id) ->
    app now (PUT_post post_id post_update) st
    = (Raise (HTTPException 404 "Post not found"), st)).
Proof.
  destruct (first_post post_id st) as [post|] eqn:E.
  - destruct (found_post_is_stored _ _ _ E) as [Hstored Hkey].
    split; [intros _ | intros Habs; now elim (Habs post Hstored)].
    exists post. split; [exact Hstored|]. split; [exact Hkey|].
    split; [reflexivity|]. clear Hstored Hkey.
    eexists. eexists. split; [apply update_post_run; exact E|].
    unfold first_post in *; cbn [set_posts posts threads documents].
    rewrite find_update_where_same by reflexivity. rewrite E.
    repeat (split; [reflexivity|]).
    intros j Hj. apply find_update_where_other.
    intros r Hr. unfold is_post in *. cbn [edit_post PostDB.id].
    apply Z.eqb_eq in Hr. rewrite Hr. split; apply Z.eqb_neq; congruence.
  - split;
      [intros (row & Hrow & Hkey); now elim (missing_post_is_absent _ _ E row)
      | intros _].
    unfold first_post in E. unfold_route. rewrite E. reflexivity.
Qed.

(** C10: when the JSON body of an update has no image field, the parsed
    payload carries the default, and the stored post ends with image null;
    id, thread_id, author, time, seen, view_count, last_viewed and
    is_initial_post keep their stored values. *)
Theorem update_post_without_image_clears_it (now : datetime) (post_id : Z)
    (body : PostBody) (post_update : PostCreate.t) (st : Store)
    (post : PostDB.t) :
  body_image body = Absent ->
  PostCreate_of_body body = Some post_update ->
  first_post post_id st = Some post ->
  exists post' st',
    app now (PUT_post post_id post_update) st = (Ok (JPost post'), st')
    /\ first_post post_id st' = Some post'
    /\ PostDB.image post' = None
    /\ PostDB.id post' = PostDB.id post
    /\ PostDB.thread_id post' = PostDB.thread_id post
    /\ PostDB.author post' = PostDB.author post
    /\ PostDB.time post' = PostDB.time post
    /\ PostDB.seen post' = PostDB.seen post
    /\ PostDB.view_count post' = PostDB.view_count post
    /\ PostDB.last_viewed post' = PostDB.last_viewed post
    /\ PostDB.is_initial_post post' = PostDB.is_initial_post post.
Proof.
  intros Himg Hparse E.
  assert (Hnone : PostCreate.image post_update = None).
  { unfold PostCreate_of_body in Hparse. rewrite Himg in Hparse.
    destruct (body_text body); inversion Hparse. reflexivity. }
  eexists. eexists. split; [apply update_post_run; exact E|].
  unfold first_post in *; cbn [set_posts posts].
  rewrite find_update_where_same by reflexivity. rewrite E.
  split; [reflexivity|]. split; [exact Hnone|].
  repeat split.
Qed.

Lemma update_post_without_image_clears_it_witness :
  body_image {| body_text := JsonStr "edited"; body_image := Absent |} = Absent
  /\ option_map PostDB.image (first_post 1 forum_with_image)
     = Some (Some "/uploads/cat.png"%string)
  /\ exists post' st',
      app 9 (PUT_post 1 (PostCreate.mk "edited" None)) forum_with_image
      = (Ok (JPost post'), st')
      /\ PostDB.image post' = None
      /\ PostDB.author post' = "alice"%string.
Proof.
  split; [reflexivity|]. split; [reflexivity|].
  destruct (update_post_without_image_clears_it 9 1
              {| body_text := JsonStr "edited"; body_image := Absent |}
              (PostCreate.mk "edited" None) forum_with_image
              (PostDB.mk 1 "alice" 1 "First post" 5
                 (Some "/uploads/cat.png"%string) false false 0 None true)
              eq_refl eq_refl eq_refl)
    as (post' & st' & Happ & _ & Himg & _ & _ & Hauthor & _).
  exists post', st'. repeat split; assumption.
Defined.

(** ** Documents *)

Lemma create_document_run (now : datetime) (document : DocumentCreate.t)
    (uuid4 : string) (st : Store) :
  app now (POST_documents document uuid4) st
  = if existsb (is_document uuid4) (documents st)
    then (Raise IntegrityError, st)
    else (Ok (JDocument (new_document uuid4 document now)),
          set_documents (documents st ++ [new_document uuid4 document now])
            st).
Proof.
  unfold_route. destruct (existsb (is_document uuid4) (documents st)) eqn:E.
  - reflexivity.
  - unfold_route. cbn [new_document DocumentDB.id].
    assert (F : find (is_document uuid4) (documents st) = None).
    { destruct (find _ _) eqn:F; [|reflexivity].
      apply find_some_existsb in F. congruence. }
    rewrite (find_app_missing _ _ _ F). simpl.
    unfold is_document at 1. simpl. rewrite String.eqb_refl. reflexivity.
Qed.

Lemma get_document_run (now : datetime) (doc_id : string) (st : Store)
    (document : DocumentDB.t) :
  first_document doc_id st = Some document ->
  exists d st',
    app now (GET_document doc_id) st = (Ok (JDocument d), st')
    /\ first_document doc_id st' = Some d
    /\ DocumentDB.id d = doc_id
    /\ DocumentDB.thread_id d = DocumentDB.thread_id document
    /\ DocumentDB.title d = DocumentDB.title document
    /\ DocumentDB.content d = DocumentDB.content document
    /\ DocumentDB.type d = DocumentDB.type document
    /\ DocumentDB.view_count d = DocumentDB.view_count document + 1
    /\ DocumentDB.last_viewed d = Some now.
Proof.
  intros E. pose proof (first_document_id _ _ _ E) as Hid.
  unfold first_document in E.
  eexists. eexists. split.
  - unfold_route. rewrite E. unfold_route. rewrite Hid.
    rewrite find_update_where_same by reflexivity.
    rewrite E. unfold_route. reflexivity.
  - unfold_route. rewrite find_update_where_same by reflexivity.
    rewrite E. cbn [option_map]. repeat split. exact Hid.
Qed.

(** C8: when a document whose content is a grid of strings has been created,
    the answer carries that grid, and fetching the document by the id of the
    answer succeeds and carries the same grid. *)
Theorem document_grid_round_trip (now now' : datetime)
    (document : DocumentCreate.t) (uuid4 : string) (st st' : Store)
    (grid : list (list string)) (d : DocumentDB.t) :
  DocumentCreate.content document = ContentGrid grid ->
  app now (POST_documents document uuid4) st = (Ok (JDocument d), st') ->
  DocumentDB.content d = ContentGrid grid
  /\ exists d' st'',
      app now' (GET_document (DocumentDB.id d)) st' = (Ok (JDocument d'), st'')
      /\ DocumentDB.id d' = DocumentDB.id d
      /\ DocumentDB.content d' = ContentGrid grid.
Proof.
  intros Hgrid Hcreate. rewrite create_document_run in Hcreate.
  destruct (existsb (is_document uuid4) (documents st)) eqn:E;
    [discriminate|].
  injection Hcreate as <- <-.
  split; [exact Hgrid|].
  assert (F : first_document uuid4
                (set_documents
                   (documents st ++ [new_document uuid4 document now]) st)
              = Some (new_document uuid4 document now)).
  { unfold first_document; cbn [set_documents documents].
    rewrite find_app_missing.
    - simpl. unfold is_document. simpl. now rewrite String.eqb_refl.
    - destruct (find _ _) eqn:F; [|reflexivity].
      apply find_some_existsb in F. congruence. }
  destruct (get_document_run now' _ _ _ F)
    as (d' & st'' & Hget & _ & Hid & _ & _ & Hcontent & _).
  exists d', st''. cbn [new_document DocumentDB.id].
  split; [exact Hget|]. split; [exact Hid|].
  rewrite Hcontent. exact Hgrid.
Qed.

Lemma document_grid_round_trip_witness :
  DocumentCreate.content grid_document = ContentGrid grid_2x3
  /\ exists d st' d' st'',
      app 6 (POST_documents grid_document "doc-1") forum_hello
      = (Ok (JDocument d), st')
      /\ app 7 (GET_document (DocumentDB.id d)) st' = (Ok (JDocument d'), st'')
      /\ DocumentDB.content d' = ContentGrid grid_2x3.
Proof.
  split; [reflexivity|].
  assert (H : app 6 (POST_documents grid_document "doc-1") forum_hello
              = (Ok (JDocument (new_document "doc-1" grid_document 6)),
                 set_documents [new_document "doc-1" grid_document 6]
                   forum_hello)) by reflexivity.
  destruct (document_grid_round_trip 6 7 grid_document "doc-1" forum_hello
              _ grid_2x3 _ eq_refl H)
    as (_ & d' & st'' & Hget & _ & Hcontent).
  eexists. eexists. exists d', st''.
  split; [exact H|]. split; assumption.
Defined.

(** ** Counters *)

Section Keyed.
Context {A K : Type} (key : A -> K) (eqb : K -> K -> bool).
Hypothesis eqb_eq : forall x y, eqb x y = true <-> x = y.
Variable le : A -> A -> Prop.
Hypothesis le_refl : forall a, le a a.

Local Abbreviation has_key := (has_key key eqb).
Local Abbreviation table_le := (table_le key eqb le).

Lemma has_key_eq i r : has_key i r = true <-> key r = i.
Proof. apply eqb_eq. Qed.

Lemma has_key_neq i j r : key r = i -> j <> i -> has_key j r = false.
Proof.
intros Hr Hji. destruct (has_key j r) eqn:E; [|reflexivity].
apply has_key_eq in E. congruence.
Qed.

Lemma table_le_same l : table_le l l.
Proof. intros i a a' H H'. rewrite H in H'. injection H' as <-. auto. Qed.

Lemma table_le_append l l' : table_le l (l ++ l').
Proof.
intros i a a' H H'. rewrite (find_app_found _ _ l' _ H) in H'.
injection H' as <-. auto.
Qed.

Lemma table_le_delete_key i l : table_le l (delete_where (has_key i) l).
Proof.
intros j a a' H H'.
assert (Hin := find_some _ _ H'). destruct Hin as [Hin Hj].
apply delete_where_In in Hin. destruct Hin as [_ Hi].
unfold delete_where in H'. rewrite find_filter_kept in H'.
- rewrite H in H'. injection H' as <-. auto.
- intros r Hr. apply has_key_eq in Hr, Hj.
  apply negb_true_iff, has_key_neq with (i := j); [exact Hr|].
  intros ->. rewrite <- Hj in Hi.
  assert (has_key (key a') a' = true) by now apply has_key_eq.
  congruence.
Qed.

Lemma unique_lookup l a b :
NoDup (map key l) -> In a l -> In b l -> key a = key b -> a = b.
Proof.
induction l as [|x l IH]; simpl; [contradiction|].
intros Hnd Ha Hb Hk. inversion Hnd as [|? ? Hx Hl]; subst.
destruct Ha as [<- | Ha], Hb as [<- | Hb]; auto.
- exfalso. apply Hx. rewrite Hk. now apply in_map.
- exfalso. apply Hx. rewrite <- Hk. now apply in_map.
Qed.

Lemma table_le_delete_unique (p : A -> bool) l :
NoDup (map key l) -> table_le l (delete_where p l).
Proof.
intros Hnd i a a' H H'.
apply find_some in H, H'. destruct H as [Ha Hi], H' as [Ha' Hi'].
apply delete_where_In in Ha'. destruct Ha' as [Ha' _].
apply has_key_eq in Hi, Hi'.
rewrite (unique_lookup l a a' Hnd Ha Ha'); [auto | congruence].
Qed.

Lemma table_le_update i (f : A -> A) l :
(forall r, key (f r) = key r) ->
(forall a, find (has_key i) l = Some a -> le a (f a)) ->
table_le l (update_where (has_key i) f l).
Proof.
intros Hkey Hle j a a' H H'.
assert (Hstable : forall k r, has_key k (f r) = has_key k r).
{ intros k r. unfold has_key. now rewrite Hkey. }
assert (Hj := find_some _ _ H). destruct Hj as [_ Hj].
apply has_key_eq in Hj.
unfold update_where in H'. rewrite find_map_stable in H'.
- rewrite H in H'. cbn [option_map] in H'. injection H' as <-.
  destruct (has_key i a) eqn:Ia; [|auto].
  apply Hle. apply has_key_eq in Ia.
  rewrite <- Ia, Hj. exact H.
- intros r. destruct (has_key i r); [apply Hstable | reflexivity].
Qed.

Lemma keys_update_where (p : A -> bool) (f : A -> A) l :
(forall r, key (f r) = key r) ->
map key (update_where p f l) = map key l.
Proof.
intros Hkey. unfold update_where. rewrite map_map. apply map_ext.
intros r. destruct (p r); [apply Hkey | reflexivity].
Qed.

Lemma keys_delete_where (p : A -> bool) l :
NoDup (map key l) -> NoDup (map key (delete_where p l)).
Proof.
unfold delete_where. induction l as [|x l IH]; simpl; [auto|].
intros Hnd. inversion Hnd as [|? ? Hx Hl]; subst.
destruct (p x); simpl; [auto|].
constructor; [|auto]. intros Hin. apply Hx.
apply in_map_iff in Hin. destruct Hin as (y & Hy & Hin).
apply filter_In in Hin. rewrite <- Hy. apply in_map. tauto.
Qed.

Lemma keys_append l x :
NoDup (map key l) -> ~ In (key x) (map key l) ->
NoDup (map key (l ++ [x])).
Proof.
intros Hnd Hx. rewrite map_app. simpl.
apply NoDup_app; [exact Hnd | repeat constructor; auto | ].
intros k Hk [<- | []]. auto.
Qed.
End Keyed.

Lemma counters_le_tables (st st' : Store) :
  table_le ThreadDB.id Z.eqb thread_le (threads st) (threads st') ->
  table_le PostDB.id Z.eqb post_le (posts st) (posts st') ->
  table_le DocumentDB.id String.eqb document_le (documents st)
    (documents st') ->
  counters_le st st'.
Proof.
  intros Ht Hp Hd. split; [|split].
  - intros i t t'. apply (Ht i).
  - intros i p p'. apply (Hp i).
  - intros i d d'. apply (Hd i).
Qed.

(** Rewrites the key of a looked-up row to the key it was looked up by. *)
Ltac name_found_rows :=
  repeat match goal with
         | E : find (is_thread ?i) ?l = Some ?t |- _ =>
             let H := fresh "Hid" in
             pose proof (find_some _ _ E) as [_ H];
             unfold is_thread in H; apply Z.eqb_eq in H;
             try rewrite H in *; revert E
         | E : find (is_post ?i) ?l = Some ?t |- _ =>
             let H := fresh "Hid" in
             pose proof (find_some _ _ E) as [_ H];
             unfold is_post in H; apply Z.eqb_eq in H;
             try rewrite H in *; revert E
         | E : find (is_document ?i) ?l = Some ?t |- _ =>
             let H := fresh "Hid" in
             pose proof (find_some _ _ E) as [_ H];
             unfold is_document in H; apply String.eqb_eq in H;
             try rewrite H in *; revert E
         end;
  intros.

Ltac table_le_step :=
  first
    [ apply table_le_same
    | apply table_le_append
    | apply (table_le_delete_key ThreadDB.id Z.eqb Z.eqb_eq)
    | apply (table_le_delete_key PostDB.id Z.eqb Z.eqb_eq)
    | apply (table_le_delete_key DocumentDB.id String.eqb String.eqb_eq)
    | apply table_le_delete_unique; [apply Z.eqb_eq | | assumption]
    | apply table_le_delete_unique; [apply String.eqb_eq | | assumption]
    | apply (table_le_update ThreadDB.id Z.eqb Z.eqb_eq);
      [ | reflexivity | ]
    | apply (table_le_update PostDB.id Z.eqb Z.eqb_eq);
      [ | reflexivity | ]
    | apply (table_le_update DocumentDB.id String.eqb String.eqb_eq);
      [ | reflexivity | ] ].

(** Two lookups of one key in one table give one row. *)
Ltac same_row :=
  match goal with
  | E : find _ ?l = Some ?t, Ha : find _ ?l = Some ?a |- _ =>
      let H := fresh in
      assert (H : Some a = Some t) by exact (eq_trans (eq_sym Ha) E);
      injection H as ->
  end.

Lemma app_counters_le (now : datetime) (r : Request) (st : Store) :
  unique_keys st -> counters_le st (snd (app now r st)).
Proof.
  intros (Ht & Hp & Hd).
  apply counters_le_tables;
    destruct r; route_cases; cbn [snd threads posts documents];
    name_found_rows; table_le_step.
  all: intros row; unfold thread_le, post_le, document_le; try lia.
  all: intros Hrow; same_row; simpl; lia.
Qed.

Lemma next_id_not_taken (ids : list Z) : ~ In (next_id ids) ids.
Proof. intros H. apply next_id_above in H. lia. Qed.

Lemma document_id_not_taken (i : string) (ds : list DocumentDB.t) :
  existsb (is_document i) ds = false -> ~ In i (map DocumentDB.id ds).
Proof.
  intros E Hin. apply in_map_iff in Hin. destruct Hin as (d & Hd & Hin).
  assert (existsb (is_document i) ds = true); [|congruence].
  apply existsb_exists. exists d. split; [exact Hin|].
  unfold is_document. now apply String.eqb_eq.
Qed.

(** Primary keys stay unique: the hypothesis of the counter theorem holds of
    every database the server reaches from the empty one. *)
Lemma app_keeps_unique_keys (now : datetime) (r : Request) (st : Store) :
  unique_keys st -> unique_keys (snd (app now r st)).
Proof.
  intros (Ht & Hp & Hd). unfold unique_keys.
  destruct r; route_cases; cbn [snd threads posts documents];
    rewrite ?keys_update_where by reflexivity;
    repeat split;
    first [ assumption
          | apply keys_delete_where; assumption
          | apply keys_append; [assumption|];
            first [ apply next_id_not_taken
                  | apply document_id_not_taken; assumption ] ].
Qed.

Lemma serve_keeps_unique_keys (rs : list (datetime * Request)) (st : Store) :
  unique_keys st -> unique_keys (serve rs st).
Proof.
  revert st. induction rs as [|r rs IH]; intros st H; simpl; [exact H|].
  apply IH. now apply app_keeps_unique_keys.
Qed.

Lemma update_document_run (now : datetime) (doc_id : string)
    (document : DocumentCreate.t) (st : Store) (db_document : DocumentDB.t) :
  first_document doc_id st = Some db_document ->
  exists d st',
    app now (PUT_document doc_id document) st = (Ok (JDocument d), st')
    /\ first_document doc_id st' = Some d
    /\ DocumentDB.id d = doc_id
    /\ DocumentDB.thread_id d = DocumentCreate.thread_id document
    /\ DocumentDB.title d = DocumentCreate.title document
    /\ DocumentDB.content d = DocumentCreate.content document
    /\ DocumentDB.type d = DocumentCreate.type document
    /\ DocumentDB.view_count d = DocumentDB.view_count db_document
    /\ DocumentDB.last_viewed d = DocumentDB.last_viewed db_document.
Proof.
  intros E. pose proof (first_document_id _ _ _ E) as Hid.
  unfold first_document in E.
  assert (Hkey : forall r,
             is_document doc_id
               (if document_differs document db_document
                then touch_document now (replace_document document r)
                else replace_document document r)
             = is_document doc_id r).
  { intros r. destruct (document_differs document db_document); reflexivity. }
  eexists. eexists. split.
  - unfold_route. rewrite E. unfold_route. rewrite Hid.
    rewrite find_update_where_same by exact Hkey.
    rewrite E. unfold_route. reflexivity.
  - unfold_route. rewrite find_update_where_same by exact Hkey.
    rewrite E. cbn [option_map].
    destruct (document_differs document db_document);
      repeat split; exact Hid.
Qed.

(** C9: across any single request, a thread found under its id before and
    after has neither a lower view_count nor a lower reply_count, and a post
    or a document found under its id before and after has no lower
    view_count. A full replace of a post or of a document leaves the row
    under that id with the view_count it had. *)
Theorem counters_never_decrease (now : datetime) (r : Request) (st : Store) :
  unique_keys st ->
  counters_le st (snd (app now r st))
  /\ (forall i post_update p,
         r = PUT_post i post_update -> first_post i st = Some p ->
         exists p',
           first_post i (snd (app now r st)) = Some p'
           /\ PostDB.view_count p' = PostDB.view_count p)
  /\ (forall i document d,
         r = PUT_document i document -> first_document i st = Some d ->
         exists d',
           first_document i (snd (app now r st)) = Some d'
           /\ DocumentDB.view_count d' = DocumentDB.view_count d).
Proof.
  intros Hu. split; [now apply app_counters_le|]. split.
  - intros i post_update p -> E.
    rewrite (update_post_run now i post_update st p E). cbn [snd].
    exists (edit_post post_update p). split; [|reflexivity].
    unfold first_post in *. cbn [set_posts posts].
    rewrite find_update_where_same by reflexivity. now rewrite E.
  - intros i document d -> E.
    destruct (update_document_run now i document st d E)
      as (d' & st' & Happ & Hfound & _ & _ & _ & _ & _ & Hcount & _).
    rewrite Happ. cbn [snd]. exists d'. split; assumption.
Qed.

Lemma counters_never_decrease_witness :
  unique_keys forum_hello
  /\ counters_le forum_hello (snd (app 9 (GET_thread 1) forum_hello))
  /\ option_map ThreadDB.view_count
       (first_thread 1 (snd (app 9 (GET_thread 1) forum_hello)))
     = Some 1.
Proof.
  assert (H : unique_keys forum_hello).
  { repeat split; simpl; repeat constructor; simpl; tauto. }
  split; [exact H|]. split; [|reflexivity].
  exact (proj1 (counters_never_decrease 9 (GET_thread 1) forum_hello H)).
Defined.

(** ** All or nothing *)

(** Every database the server reaches from the empty one has unique primary
    keys in its three tables: integer keys are taken above every key in the
    table, and a document is not inserted under an id that is taken. *)
Lemma served_before_unique_keys (now : datetime) (st : Store) :
  served_before now st -> unique_keys st.
Proof.
  intros (rs & _ & <-). apply serve_keeps_unique_keys.
  repeat split; constructor.
Qed.

(** A request that fails leaves the database as it found it: every path
    function raises before its first write, or writes and commits once. *)
Lemma app_failure_changes_nothing (now : datetime) (r : Request) (st : Store)
    (e : Failure) (st' : Store) :
  app now r st = (Raise e, st') -> st' = st.
Proof.
  destruct r; route_cases; intros H; inversion H; subst; try reflexivity.
  all: exfalso; clear H; name_found_rows.
  all: match goal with
       | H : find ?p (?l ++ [?x]) = None |- _ =>
           assert (Hx : p x = true)
             by (unfold is_thread, is_post, is_document; simpl;
                 first [apply Z.eqb_refl | apply String.eqb_refl]);
           rewrite (find_none _ _ H x) in Hx;
           [discriminate | apply in_or_app; right; left; reflexivity]
       | E : find ?q ?l = Some ?t, H : find ?p (update_where ?p ?f ?l) = None
         |- _ =>
           rewrite find_update_where_same in H;
           [|intros; try destruct (document_differs _ _); reflexivity];
           assert (Hq : find p l = Some t) by exact E;
           rewrite Hq in H; discriminate
       end.
Qed.

(** ** Single rows: fetch, replace, delete *)

Lemma is_post_other (i j : Z) (r : PostDB.t) :
  is_post i r = true -> j <> i -> is_post j r = false.
Proof.
  unfold is_post. intros Hi Hj. apply Z.eqb_eq in Hi.
  apply Z.eqb_neq. congruence.
Qed.

Lemma is_document_other (i j : string) (r : DocumentDB.t) :
  is_document i r = true -> j <> i -> is_document j r = false.
Proof.
  unfold is_document. intros Hi Hj. apply String.eqb_eq in Hi.
  apply String.eqb_neq. congruence.
Qed.

(** Fetching a stored post answers with the post, counted once more as
    viewed, marked seen and stamped with the clock reading, and stores it so;
    its other columns, the other posts, the threads and the documents stay as
    they were. Fetching an id that is not stored fails with 404 "Post not
    found" and leaves the database as it was. *)
Theorem get_post_counts_view_and_marks_seen (now : datetime) (post_id : Z)
    (st : Store) :
  ((exists row, In row (posts st) /\ PostDB.id row = post_id) ->
   exists post,
     In post (posts st)
     /\ PostDB.id post = post_id
     /\ first_post post_id st = Some post
     /\ (
      exists post' st',
        app now (GET_post post_id) st = (Ok (JPost post'), st')
        /\ first_post post_id st' = Some post'
        /\ PostDB.view_count post' = PostDB.view_count post + 1
        /\ PostDB.seen post' = true
        /\ PostDB.last_viewed post' = Some now
        /\ PostDB.id post' = post_id
        /\ PostDB.author post' = PostDB.author post
        /\ PostDB.thread_id post' = PostDB.thread_id post
        /\ PostDB.text post' = PostDB.text post
        /\ PostDB.time post' = PostDB.time post
        /\ PostDB.image post' = PostDB.image post
        /\ PostDB.edited post' = PostDB.edited post
        /\ PostDB.is_initial_post post' = PostDB.is_initial_post post
        /\ (forall j, j <> post_id -> first_post j st' = first_post j st)
        /\ threads st' = threads st
        /\ documents st' = documents st))
  /\ ((forall row, In row (posts st) -> PostDB.id row <> post_id) ->
    app now (GET_post post_id) st
    = (Raise (HTTPException 404 "Post not found"), st)).
Proof.
  destruct (first_post post_id st) as [post|] eqn:E.
  - destruct (found_post_is_stored _ _ _ E) as [Hstored Hkey].
    split; [intros _ | intros Habs; now elim (Habs post Hstored)].
    exists post. split; [exact Hstored|]. split; [exact Hkey|].
    split; [reflexivity|]. clear Hstored Hkey.
    pose proof (first_post_id _ _ _ E) as Hid. unfold first_post in E.
    eexists. eexists. split.
    + unfold_route. rewrite E. unfold_route. rewrite Hid.
      rewrite find_update_where_same by reflexivity.
      rewrite E. unfold_route. reflexivity.
    + unfold_route. rewrite find_update_where_same by reflexivity.
      rewrite E. cbn [option_map].
      split; [reflexivity|].
      repeat (split; [first [reflexivity | exact Hid]|]).
      split; [|split; reflexivity].
      intros j Hj. apply find_update_where_other.
      intros r Hr. split; [now apply (is_post_other post_id)|].
      apply (is_post_other post_id); [|exact Hj].
      unfold is_post in *. exact Hr.
  - split;
      [intros (row & Hrow & Hkey); now elim (missing_post_is_absent _ _ E row)
      | intros _].
    unfold_route. unfold first_post in E. rewrite E. reflexivity.
Qed.

(** Fetching a stored document answers with the document, counted once more
    as viewed and stamped with the clock reading, and stores it so; title,
    thread, content and type are untouched, as are the other documents, the
    threads and the posts. Fetching an id that is not stored fails with 404
    "Document not found" and leaves the database as it was. *)
Theorem get_document_counts_view (now : datetime) (doc_id : string)
    (st : Store) :
  ((exists row, In row (documents st) /\ DocumentDB.id row = doc_id) ->
   exists document,
     In document (documents st)
     /\ DocumentDB.id document = doc_id
     /\ first_document doc_id st = Some document
     /\ (
      exists d st',
        app now (GET_document doc_id) st = (Ok (JDocument d), st')
        /\ first_document doc_id st' = Some d
        /\ DocumentDB.view_count d = DocumentDB.view_count document + 1
        /\ DocumentDB.last_viewed d = Some now
        /\ DocumentDB.id d = doc_id
        /\ DocumentDB.thread_id d = DocumentDB.thread_id document
        /\ DocumentDB.title d = DocumentDB.title document
        /\ DocumentDB.content d = DocumentDB.content document
        /\ DocumentDB.type d = DocumentDB.type document
        /\ DocumentDB.created_at d = DocumentDB.created_at document
        /\ (forall j, j <> doc_id ->
                      first_document j st' = first_document j st)
        /\ threads st' = threads st
        /\ posts st' = posts st))
  /\ ((forall row, In row (documents st) -> DocumentDB.id row <> doc_id) ->
    app now (GET_document doc_id) st
    = (Raise (HTTPException 404 "Document not found"), st)).
Proof.
  destruct (first_document doc_id st) as [document|] eqn:E.
  - destruct (found_document_is_stored _ _ _ E) as [Hstored Hkey].
    split; [intros _ | intros Habs; now elim (Habs document Hstored)].
    exists document. split; [exact Hstored|]. split; [exact Hkey|].
    split; [reflexivity|]. clear Hstored Hkey.
    pose proof (first_document_id _ _ _ E) as Hid.
    unfold first_document in E.
    eexists. eexists. split.
    + unfold_route. rewrite E. unfold_route. rewrite Hid.
      rewrite find_update_where_same by reflexivity.
      rewrite E. unfold_route. reflexivity.
    + unfold_route. rewrite find_update_where_same by reflexivity.
      rewrite E. cbn [option_map].
      split; [reflexivity|].
      repeat (split; [first [reflexivity | exact Hid]|]).
      split; [|split; reflexivity].
      intros j Hj. apply find_update_where_other.
      intros r Hr. split; [now apply (is_document_other doc_id)|].
      apply (is_document_other doc_id); [|exact Hj].
      unfold is_document in *. exact Hr.
  - split;
      [intros (row & Hrow & Hkey); now elim (missing_document_is_absent _ _ E row)
      | intros _].
    unfold_route. unfold first_document in E. rewrite E. reflexivity.
Qed.

(** Replacing a stored document answers with the document carrying the
    payload's title, thread_id, content and type, under the same id and with
    the creation time, view_count and last_viewed it had, and stores it so;
    nothing checks that the new thread_id names a thread. The other
    documents, the threads and the posts stay as they were. Replacing an id
    that is not stored fails with 404 "Document not found" and changes
    nothing. *)
Theorem update_document_replaces_payload_fields (now : datetime)
    (doc_id : string) (document : DocumentCreate.t) (st : Store) :
  ((exists row, In row (documents st) /\ DocumentDB.id row = doc_id) ->
   exists db_document,
     In db_document (documents st)
     /\ DocumentDB.id db_document = doc_id
     /\ first_document doc_id st = Some db_document
     /\ (
      exists d st',
        app now (PUT_document doc_id document) st = (Ok (JDocument d), st')
        /\ first_document doc_id st' = Some d
        /\ DocumentDB.id d = doc_id
        /\ DocumentDB.thread_id d = DocumentCreate.thread_id document
        /\ DocumentDB.title d = DocumentCreate.title document
        /\ DocumentDB.content d = DocumentCreate.content document
        /\ DocumentDB.type d = DocumentCreate.type document
        /\ DocumentDB.created_at d = DocumentDB.created_at db_document
        /\ DocumentDB.view_count d = DocumentDB.view_count db_document
        /\ DocumentDB.last_viewed d = DocumentDB.last_viewed db_document
        /\ (forall j, j <> doc_id ->
                      first_document j st' = first_document j st)
        /\ threads st' = threads st
        /\ posts st' = posts st))
  /\ ((forall row, In row (documents st) -> DocumentDB.id row <> doc_id) ->
    app now (PUT_document doc_id document) st
    = (Raise (HTTPException 404 "Document not found"), st)).
Proof.
  destruct (first_document doc_id st) as [db_document|] eqn:E.
  - destruct (found_document_is_stored _ _ _ E) as [Hstored Hkey].
    split; [intros _ | intros Habs; now elim (Habs db_document Hstored)].
    exists db_document. split; [exact Hstored|]. split; [exact Hkey|].
    split; [reflexivity|]. clear Hstored Hkey.
    pose proof (first_document_id _ _ _ E) as Hid.
    unfold first_document in E.
    assert (Hkey : forall r,
               is_document doc_id
                 (if document_differs document db_document
                  then touch_document now (replace_document document r)
                  else replace_document document r)
               = is_document doc_id r).
    { intros r. destruct (document_differs document db_document);
        reflexivity. }
    eexists. eexists. split.
    + unfold_route. rewrite E. unfold_route. rewrite Hid.
      rewrite find_update_where_same by exact Hkey.
      rewrite E. unfold_route. reflexivity.
    + unfold_route. rewrite find_update_where_same by exact Hkey.
      rewrite E. cbn [option_map].
      split; [reflexivity|].
      assert (Hother : forall j, j <> doc_id ->
                 find (is_document j)
                   (update_where (is_document doc_id)
                      (fun r =>
                         if document_differs document db_document
                         then touch_document now (replace_document document r)
                         else replace_document document r) (documents st))
                 = find (is_document j) (documents st)).
      { intros j Hj. apply find_update_where_other.
        intros r Hr. split; [now apply (is_document_other doc_id)|].
        apply (is_document_other doc_id); [|exact Hj].
        rewrite Hkey. exact Hr. }
      destruct (document_differs document db_document);
        repeat (split; [first [reflexivity | exact Hid]|]);
        (split; [exact Hother | split; reflexivity]).
  - split;
      [intros (row & Hrow & Hkey); now elim (missing_document_is_absent _ _ E row)
      | intros _].
    unfold_route. unfold first_document in E. rewrite E. reflexivity.
Qed.

(** Deleting a stored post answers with the confirmation and removes the
    rows under that id and no other post; the threads, and with them the
    reply_count of the post's thread, and the documents stay as they were.
    Deleting an id that is not stored fails with 404 "Post not found" and
    changes nothing. *)
Theorem delete_post_leaves_reply_count (now : datetime) (post_id : Z)
    (st : Store) :
  ((exists row, In row (posts st) /\ PostDB.id row = post_id) ->
   exists post,
     In post (posts st)
     /\ PostDB.id post = post_id
     /\ first_post post_id st = Some post
     /\ (
      exists st',
        app now (DELETE_post post_id) st = (Ok (JMessage "Post deleted"), st')
        /\ first_post post_id st' = None
        /\ (forall p, In p (posts st') <->
                      In p (posts st) /\ PostDB.id p <> post_id)
        /\ threads st' = threads st
        /\ documents st' = documents st))
  /\ ((forall row, In row (posts st) -> PostDB.id row <> post_id) ->
    app now (DELETE_post post_id) st
    = (Raise (HTTPException 404 "Post not found"), st)).
Proof.
  destruct (first_post post_id st) as [post|] eqn:E.
  - destruct (found_post_is_stored _ _ _ E) as [Hstored Hkey].
    split; [intros _ | intros Habs; now elim (Habs post Hstored)].
    exists post. split; [exact Hstored|]. split; [exact Hkey|].
    split; [reflexivity|]. clear Hstored Hkey.
    pose proof (first_post_id _ _ _ E) as Hid. unfold first_post in E.
    eexists. split.
    + unfold_route. rewrite E. unfold_route. rewrite Hid. reflexivity.
    + unfold_route. split; [apply find_delete_where|].
      split; [|split; reflexivity].
      intros p. rewrite delete_where_In. unfold is_post.
      rewrite Z.eqb_neq. reflexivity.
  - split;
      [intros (row & Hrow & Hkey); now elim (missing_post_is_absent _ _ E row)
      | intros _].
    unfold_route. unfold first_post in E. rewrite E. reflexivity.
Qed.

(** Deleting a stored document answers with the confirmation and removes the
    rows under that id and no other document; threads and posts stay as they
    were. Deleting an id that is not stored fails with 404 "Document not
    found" and changes nothing. *)
Theorem delete_document_removes_only_it (now : datetime) (doc_id : string)
    (st : Store) :
  ((exists row, In row (documents st) /\ DocumentDB.id row = doc_id) ->
   exists document,
     In document (documents st)
     /\ DocumentDB.id document = doc_id
     /\ first_document doc_id st = Some document
     /\ (
      exists st',
        app now (DELETE_document doc_id) st
        = (Ok (JMessage "Document deleted"), st')
        /\ first_document doc_id st' = None
        /\ (forall d, In d (documents st') <->
                      In d (documents st) /\ DocumentDB.id d <> doc_id)
        /\ threads st' = threads st
        /\ posts st' = posts st))
  /\ ((forall row, In row (documents st) -> DocumentDB.id row <> doc_id) ->
    app now (DELETE_document doc_id) st
    = (Raise (HTTPException 404 "Document not found"), st)).
Proof.
  destruct (first_document doc_id st) as [document|] eqn:E.
  - destruct (found_document_is_stored _ _ _ E) as [Hstored Hkey].
    split; [intros _ | intros Habs; now elim (Habs document Hstored)].
    exists document. split; [exact Hstored|]. split; [exact Hkey|].
    split; [reflexivity|]. clear Hstored Hkey.
    pose proof (first_document_id _ _ _ E) as Hid.
    unfold first_document in E.
    eexists. split.
    + unfold_route. rewrite E. unfold_route. rewrite Hid. reflexivity.
    + unfold_route. split; [apply find_delete_where|].
      split; [|split; reflexivity].
      intros d. rewrite delete_where_In. unfold is_document.
      rewrite String.eqb_neq. reflexivity.
  - split;
      [intros (row & Hrow & Hkey); now elim (missing_document_is_absent _ _ E row)
      | intros _].
    unfold_route. unfold first_document in E. rewrite E. reflexivity.
Qed.

(** ** Listings *)

Section OrderByTotal.
Context {A : Type} (leb : A -> A -> bool).
Hypothesis leb_total : forall x y, leb x y = false -> leb y x = true.
Hypothesis leb_trans :
  forall x y z, leb x y = true -> leb y z = true -> leb x z = true.

Lemma insert_by_permutation x l : Permutation (x :: l) (insert_by leb x l).
Proof.
  induction l as [|y l IH]; simpl; [reflexivity|].
  destruct (leb x y); [reflexivity|].
  rewrite perm_swap. now constructor.
Qed.

Lemma order_by_permutation l : Permutation l (order_by leb l).
Proof.
  induction l as [|x l IH]; simpl; [constructor|].
  rewrite <- insert_by_permutation. now constructor.
Qed.

Lemma insert_by_in_order x l :
  StronglySorted (fun a b => leb a b = true) l ->
  StronglySorted (fun a b => leb a b = true) (insert_by leb x l).
Proof.
  intros Hs. induction Hs as [|y l Hs IH Hy]; simpl.
  - repeat constructor.
  - destruct (leb x y) eqn:Hxy.
    + constructor; [now constructor|].
      constructor; [exact Hxy|].
      rewrite Forall_forall in *. intros z Hz. eauto.
    + constructor; [exact IH|].
      rewrite Forall_forall in *. intros z Hz.
      apply (Permutation_in _ (Permutation_sym (insert_by_permutation x l)))
        in Hz.
      destruct Hz as [<- | Hz]; [now apply leb_total | auto].
Qed.

Lemma order_by_in_order l :
  StronglySorted (fun a b => leb a b = true) (order_by leb l).
Proof.
  induction l as [|x l IH]; simpl; [constructor|].
  now apply insert_by_in_order.
Qed.
End OrderByTotal.

(** Listing the threads answers with every stored thread, each once, the
    one with the latest last_activity first, and leaves the database as it
    was; with no thread stored the answer is the empty list. *)
Theorem get_threads_latest_activity_first (now : datetime) (st : Store) :
  exists rows,
    app now GET_threads st = (Ok (JThreads rows), st)
    /\ Permutation (threads st) rows
    /\ StronglySorted
         (fun x y => ThreadDB.last_activity y <= ThreadDB.last_activity x)
         rows
    /\ (threads st = [] -> rows = []).
Proof.
  eexists. split; [reflexivity|]. split; [|split].
  - apply order_by_permutation.
  - assert (S := order_by_in_order by_last_activity_desc).
    unfold by_last_activity_desc in S at 3.
    eapply StronglySorted_ind with
      (P := fun l => StronglySorted
                       (fun x y => ThreadDB.last_activity y
                                   <= ThreadDB.last_activity x) l);
      [constructor | | apply S].
    + intros a l _ IH Ha. constructor; [exact IH|].
      eapply Forall_impl; [|exact Ha]. intros b Hb. now apply Z.leb_le.
    + unfold by_last_activity_desc. intros x y H.
      apply Z.leb_gt in H. apply Z.leb_le. lia.
    + unfold by_last_activity_desc. intros x y z H1 H2.
      apply Z.leb_le in H1, H2. apply Z.leb_le. lia.
  - intros H. unfold_route. rewrite H. reflexivity.
Qed.

Section Dict.
Context {V : Type}.
Implicit Types (d : list (string * V)) (k : string) (v : V).



End Dict.



(** ** What no request rewrites *)

Lemma fixed_columns_tables (st st' : Store) :
  table_le ThreadDB.id Z.eqb thread_fixed (threads st) (threads st') ->
  table_le PostDB.id Z.eqb post_fixed (posts st) (posts st') ->
  table_le DocumentDB.id String.eqb document_fixed (documents st)
    (documents st') ->
  fixed_columns st st'.
Proof.
  intros Ht Hp Hd. split; [|split].
  - intros i t t'. apply (Ht i).
  - intros i p p'. apply (Hp i).
  - intros i d d'. apply (Hd i).
Qed.

(** Across any single request, on a database with unique primary keys, a
    thread found under its id before and after keeps title, creator and
    created_at; a post keeps author, thread_id, time and is_initial_post; a
    document keeps created_at. *)
Theorem requests_keep_fixed_columns (now : datetime) (r : Request)
    (st : Store) :
  unique_keys st -> fixed_columns st (snd (app now r st)).
Proof.
  intros (Ht & Hp & Hd).
  apply fixed_columns_tables;
    destruct r; route_cases; cbn [snd threads posts documents];
    name_found_rows; table_le_step.
  all: intros row; unfold thread_fixed, post_fixed, document_fixed;
    try (repeat split; reflexivity).
  all: intros Hrow; try destruct (document_differs _ _); reflexivity.
Qed.

Lemma requests_keep_fixed_columns_witness :
  unique_keys forum_hello
  /\ fixed_columns forum_hello
       (snd (app 9 (PUT_post 1 (PostCreate.mk "edited" None)) forum_hello))
  /\ option_map PostDB.text
       (first_post 1
          (snd (app 9 (PUT_post 1 (PostCreate.mk "edited" None))
                  forum_hello)))
     = Some "edited"%string.
Proof.
  assert (H : unique_keys forum_hello).
  { repeat split; simpl; repeat constructor; simpl; tauto. }
  split; [exact H|]. split; [|reflexivity].
  exact (requests_keep_fixed_columns 9 _ forum_hello H).
Defined.

Lemma update_where_twice {A} (p : A -> bool) (f : A -> A) (l : list A) :
  (forall r, p (f r) = p r) -> (forall r, f (f r) = f r) ->
  update_where p f (update_where p f l) = update_where p f l.
Proof.
  intros Hp Hf. unfold update_where. rewrite map_map. apply map_ext.
  intros r. destruct (p r) eqn:E; [|now rewrite E].
  now rewrite Hp, E, Hf.
Qed.

(** Sending the same post update a second time, at any later moment, gives
    the answer of the first and leaves the database the first one made. *)
Theorem update_post_twice_is_once (now now' : datetime) (post_id : Z)
    (post_update : PostCreate.t) (st : Store) :
  app now' (PUT_post post_id post_update)
    (snd (app now (PUT_post post_id post_update) st))
  = app now (PUT_post post_id post_update) st.
Proof.
  destruct (first_post post_id st) as [post|] eqn:E.
  - rewrite (update_post_run now post_id post_update st post E). cbn [snd].
    rewrite (update_post_run now' post_id post_update _
               (edit_post post_update post)).
    + cbn [set_posts threads posts documents].
      rewrite update_where_twice by reflexivity. reflexivity.
    + unfold first_post in *. cbn [set_posts posts].
      rewrite find_update_where_same by reflexivity. now rewrite E.
  - assert (H : forall c, app c (PUT_post post_id post_update) st
                          = (Raise (HTTPException 404 "Post not found"), st)).
    { intros c. unfold_route. unfold first_post in E. rewrite E.
      reflexivity. }
    rewrite (H now). cbn [snd]. apply H.
Qed.

(** ** Databases the server reaches *)

Lemma app_failure_changes_nothing_witness :
  exists e st',
    app 9 (POST_thread_posts 7 "hi" (Some (Saved "cat.png"))) forum_hello
    = (Raise e, st')
    /\ st' = forum_hello.
Proof.
  eexists. eexists. split; [reflexivity|].
  exact (app_failure_changes_nothing 9
           (POST_thread_posts 7 "hi" (Some (Saved "cat.png"))) forum_hello
           _ _ eq_refl).
Defined.

Lemma served_before_unique_keys_witness :
  served_before 7 forum_with_document /\ unique_keys forum_with_document.
Proof.
  assert (H : served_before 7 forum_with_document).
  { exists [(5, POST_threads "Hello" "alice" "First post" None);
            (6, POST_documents
                  (DocumentCreate.mk "notes" 1 (ContentStr "see above")
                     "text") "doc-1")].
    split; [|reflexivity]. repeat constructor; simpl; lia. }
  split; [exact H|].
  exact (served_before_unique_keys 7 forum_with_document H).
Defined.

(** Whatever requests are served, in whatever order, a database in which
    every post has its thread stays one: posts are only inserted under a
    thread that was looked up, and leave with their thread. *)
Theorem serve_keeps_posts_referencing (rs : list (datetime * Request))
    (st : Store) :
  posts_reference_threads st -> posts_reference_threads (serve rs st).
Proof.
  revert st. induction rs as [|r rs IH]; intros st H; simpl; [exact H|].
  apply IH. now apply app_keeps_posts_referencing.
Qed.

Lemma serve_keeps_posts_referencing_witness :
  posts_reference_threads empty_store
  /\ posts_reference_threads
       (serve [(5, POST_threads "Hello" "alice" "First post" None);
               (6, POST_system_thread_posts 1 (PostCreate.mk "hi" None));
               (7, POST_system_thread_posts 2 (PostCreate.mk "lost" None));
               (8, DELETE_thread 1)] empty_store).
Proof.
  assert (H : posts_reference_threads empty_store) by (intros p []).
  split; [exact H|].
  exact (serve_keeps_posts_referencing _ empty_store H).
Defined.

(** ** A thread and its posts *)

Lemma create_thread_run (title creator initial_post : string)
    (image : option UploadFile) (now : datetime) (st : Store) :
  app now (POST_threads title creator initial_post image) st
  = match image with
    | Some (SaveFailed e) => (Raise (HTTPException 500 e), st)
    | _ =>
        (Ok (JThread (new_thread title creator now st)),
         {| threads := threads st ++ [new_thread title creator now st];
            posts :=
              posts st
              ++ [new_post (next_id (map ThreadDB.id (threads st))) creator
                    initial_post (image_path_of image) true now st];
            documents := documents st |})
    end.
Proof.
  destruct image as [[f|e]|]; unfold_route; try reflexivity.
  all: rewrite (find_app_missing _ _ _ (next_thread_id_fresh (threads st)));
    simpl; unfold is_thread at 1; simpl; rewrite Z.eqb_refl; reflexivity.
Qed.

Lemma no_posts_under_next_id (st : Store) :
  posts_reference_threads st ->
  filter (in_thread_post (next_id (map ThreadDB.id (threads st)))) (posts st)
  = [].
Proof.
  intros H.
  destruct (filter _ (posts st)) as [|p l] eqn:E; [reflexivity|].
  assert (Hp : In p (p :: l)) by (left; reflexivity).
  rewrite <- E in Hp. apply filter_In in Hp. destruct Hp as [Hp Ht].
  unfold in_thread_post in Ht. apply Z.eqb_eq in Ht.
  specialize (H p Hp). rewrite Ht in H. unfold thread_exists in H.
  assert (N := find_none _ _ (next_thread_id_fresh (threads st))).
  apply existsb_exists in H. destruct H as (t & Hin & Hid).
  rewrite (N t Hin) in Hid. discriminate.
Qed.

(** In a database where every post has its thread, a thread just created
    (with no image, or with one that was saved) is fetched with exactly one
    post: its initial post, carrying the creator and the text of the
    request; that first fetch reports view_count 1 and reply_count 0. *)
Theorem new_thread_is_fetched_with_its_initial_post
    (title creator initial_post : string) (image : option UploadFile)
    (now now' : datetime) (st : Store) :
  posts_reference_threads st ->
  (forall e, image <> Some (SaveFailed e)) ->
  exists db_thread st' thread db_post docs st'',
    app now (POST_threads title creator initial_post image) st
    = (Ok (JThread db_thread), st')
    /\ app now' (GET_thread (ThreadDB.id db_thread)) st'
       = (Ok (JCompleteThread thread [db_post] docs), st'')
    /\ ThreadDB.id thread = ThreadDB.id db_thread
    /\ ThreadDB.title thread = title
    /\ ThreadDB.creator thread = creator
    /\ ThreadDB.view_count thread = 1
    /\ ThreadDB.reply_count thread = 0
    /\ PostDB.is_initial_post db_post = true
    /\ PostDB.author db_post = creator
    /\ PostDB.text db_post = initial_post
    /\ PostDB.thread_id db_post = ThreadDB.id db_thread.
Proof.
  intros Hrefs Himage.
  assert (Hrun := create_thread_run title creator initial_post image now st).
  assert (Happ :
            app now (POST_threads title creator initial_post image) st
            = (Ok (JThread (new_thread title creator now st)),
               {| threads := threads st ++ [new_thread title creator now st];
                  posts :=
                    posts st
                    ++ [new_post (next_id (map ThreadDB.id (threads st)))
                          creator initial_post (image_path_of image) true now
                          st];
                  documents := documents st |})).
  { destruct image as [[f|e]|]; try exact Hrun.
    exfalso. now apply (Himage e). }
  clear Hrun.
  eexists. eexists. eexists. eexists. eexists. eexists.
  split; [exact Happ|]. split.
  - unfold_route. cbn [new_thread ThreadDB.id].
    rewrite (find_app_missing _ _ _ (next_thread_id_fresh (threads st))).
    cbn [find]. unfold is_thread at 1. cbn [ThreadDB.id].
    rewrite Z.eqb_refl. unfold_route. cbn [ThreadDB.id].
    rewrite find_update_where_same by reflexivity.
    rewrite (find_app_missing _ _ _ (next_thread_id_fresh (threads st))).
    cbn [find]. unfold is_thread at 1. cbn [ThreadDB.id].
    rewrite Z.eqb_refl. cbn [option_map]. unfold_route.
    unfold serialize_response.
    cbn [touch_thread ThreadDB.id new_thread posts documents].
    rewrite filter_app, (no_posts_under_next_id st Hrefs).
    cbn [filter app new_post]. unfold in_thread_post at 1.
    cbn [PostDB.thread_id]. rewrite Z.eqb_refl. reflexivity.
  - repeat split.
Qed.

Lemma new_thread_is_fetched_with_its_initial_post_witness :
  posts_reference_threads forum_hello
  /\ exists db_thread st' thread db_post docs st'',
      app 8 (POST_threads "Second" "bob" "Again" None) forum_hello
      = (Ok (JThread db_thread), st')
      /\ app 9 (GET_thread (ThreadDB.id db_thread)) st'
         = (Ok (JCompleteThread thread [db_post] docs), st'')
      /\ PostDB.author db_post = "bob"%string.
Proof.
  assert (H : posts_reference_threads forum_hello).
  { intros p [<- | []]. reflexivity. }
  split; [exact H|].
  destruct (new_thread_is_fetched_with_its_initial_post "Second" "bob"
              "Again" None 8 9 forum_hello H)
    as (t & st' & t' & p & docs & st'' & H1 & H2 & _ & _ & _ & _ & _ & _
        & Ha & _).
  { intros e. discriminate. }
  exists t, st', t', p, docs, st''. repeat split; assumption.
Defined.

(** The first fetch of a document just created answers with the payload's
    title, thread, content and type under the id the creation answered with,
    and counts one view; the creation itself answers with view_count 0 and no
    last_viewed. *)
Theorem new_document_first_fetch (now now' : datetime)
    (document : DocumentCreate.t) (uuid4 : string) (st st' : Store)
    (d : DocumentDB.t) :
  app now (POST_documents document uuid4) st = (Ok (JDocument d), st') ->
  DocumentDB.id d = uuid4
  /\ DocumentDB.view_count d = 0
  /\ DocumentDB.last_viewed d = None
  /\ first_document uuid4 st = None
  /\ exists d' st'',
      app now' (GET_document (DocumentDB.id d)) st' = (Ok (JDocument d'), st'')
      /\ DocumentDB.id d' = uuid4
      /\ DocumentDB.title d' = DocumentCreate.title document
      /\ DocumentDB.thread_id d' = DocumentCreate.thread_id document
      /\ DocumentDB.content d' = DocumentCreate.content document
      /\ DocumentDB.type d' = DocumentCreate.type document
      /\ DocumentDB.view_count d' = 1
      /\ DocumentDB.last_viewed d' = Some now'.
Proof.
  intros Hcreate. rewrite create_document_run in Hcreate.
  destruct (existsb (is_document uuid4) (documents st)) eqn:E;
    [discriminate|].
  injection Hcreate as <- <-.
  assert (N : find (is_document uuid4) (documents st) = None).
  { destruct (find _ _) eqn:F; [|reflexivity].
    apply find_some_existsb in F. congruence. }
  repeat (split; [first [reflexivity | exact N]|]).
  assert (F : first_document uuid4
                (set_documents
                   (documents st ++ [new_document uuid4 document now]) st)
              = Some (new_document uuid4 document now)).
  { unfold first_document; cbn [set_documents documents].
    rewrite (find_app_missing _ _ _ N).
    simpl. unfold is_document. simpl. now rewrite String.eqb_refl. }
  destruct (get_document_run now' _ _ _ F)
    as (d' & st'' & Hget & _ & Hid & Ht & Hti & Hc & Hty & Hv & Hl).
  exists d', st''. cbn [new_document DocumentDB.id].
  repeat split; assumption.
Qed.

Lemma new_document_first_fetch_witness :
  exists d st' d' st'',
    app 6 (POST_documents stray_document "doc-9") forum_hello
    = (Ok (JDocument d), st')
    /\ app 7 (GET_document (DocumentDB.id d)) st' = (Ok (JDocument d'), st'')
    /\ DocumentDB.view_count d' = 1
    /\ DocumentDB.content d' = ContentStr "see above".
Proof.
  assert (H : app 6 (POST_documents stray_document "doc-9") forum_hello
              = (Ok (JDocument (new_document "doc-9" stray_document 6)),
                 set_documents [new_document "doc-9" stray_document 6]
                   forum_hello)) by reflexivity.
  destruct (new_document_first_fetch 6 7 stray_document "doc-9" forum_hello
              _ _ H)
    as (_ & _ & _ & _ & d' & st'' & Hget & _ & _ & _ & Hc & _ & Hv & _).
  eexists. eexists. exists d', st''.
  split; [exact H|]. repeat split; assumption.
Defined.

(** ** Counting replies *)

Section Tally.
Context {A : Type}.
Implicit Types (p q : A -> bool) (l : list A).

Lemma tally_append q l x :
  tally q (l ++ [x]) = tally q l + (if q x then 1 else 0).
Proof.
  unfold tally. rewrite filter_app, length_app. simpl.
  destruct (q x); simpl; lia.
Qed.

Lemma tally_update_where p q (f : A -> A) l :
  (forall r, q (f r) = q r) -> tally q (update_where p f l) = tally q l.
Proof.
  intros Hf. unfold tally, update_where. f_equal.
  induction l as [|a l IH]; simpl; [reflexivity|].
  destruct (p a); rewrite ?Hf; destruct (q a); simpl; now rewrite IH.
Qed.

Lemma tally_delete_where p q l :
  (forall r, p r = true -> q r = false) ->
  tally q (delete_where p l) = tally q l.
Proof.
  intros Hpq. unfold tally, delete_where. f_equal.
  induction l as [|a l IH]; simpl; [reflexivity|].
  destruct (p a) eqn:Pa; simpl.
  - rewrite (Hpq a Pa). exact IH.
  - destruct (q a); simpl; now rewrite IH.
Qed.

Lemma tally_none q l : filter q l = [] -> tally q l = 0.
Proof. unfold tally. now intros ->. Qed.
End Tally.

Lemma filter_narrower {A} (p q : A -> bool) (l : list A) :
  (forall r, q r = true -> p r = true) -> filter p l = [] -> filter q l = [].
Proof.
  intros Hqp Hp. induction l as [|a l IH]; simpl in *; [reflexivity|].
  destruct (p a) eqn:Pa; [discriminate|].
  destruct (q a) eqn:Qa; [|auto].
  apply Hqp in Qa. congruence.
Qed.

Lemma reply_in_other (i j : Z) (p : PostDB.t) :
  PostDB.thread_id p = i -> j <> i -> reply_in j p = false.
Proof.
  intros Hp Hj. unfold reply_in, in_thread_post.
  assert (E : (PostDB.thread_id p =? j) = false)
    by (apply Z.eqb_neq; congruence).
  now rewrite E.
Qed.

Lemma initial_in_other (i j : Z) (p : PostDB.t) :
  PostDB.thread_id p = i -> j <> i -> initial_in j p = false.
Proof.
  intros Hp Hj. unfold initial_in, in_thread_post.
  assert (E : (PostDB.thread_id p =? j) = false)
    by (apply Z.eqb_neq; congruence).
  now rewrite E.
Qed.

Lemma acct_update_threads (p : ThreadDB.t -> bool)
    (f : ThreadDB.t -> ThreadDB.t) ts ps :
  (forall r, ThreadDB.id (f r) = ThreadDB.id r
             /\ ThreadDB.reply_count (f r) = ThreadDB.reply_count r) ->
  acct ts ps -> acct (update_where p f ts) ps.
Proof.
  intros Hf H t Ht. unfold update_where in Ht. apply in_map_iff in Ht.
  destruct Ht as (t0 & <- & Ht0). specialize (H t0 Ht0).
  destruct (p t0); [|exact H].
  destruct (Hf t0) as [-> ->]. exact H.
Qed.

Lemma acct_update_posts (p : PostDB.t -> bool) (f : PostDB.t -> PostDB.t)
    ts ps :
  (forall r, PostDB.thread_id (f r) = PostDB.thread_id r
             /\ PostDB.is_initial_post (f r) = PostDB.is_initial_post r) ->
  acct ts ps -> acct ts (update_where p f ps).
Proof.
  intros Hf H t Ht. specialize (H t Ht).
  rewrite !tally_update_where; [exact H| |];
    intros r; destruct (Hf r) as [H1 H2];
    unfold initial_in, reply_in, in_thread_post; now rewrite H1, H2.
Qed.

Lemma acct_cascade (i : Z) ts ps :
  acct ts ps ->
  acct (delete_where (is_thread i) ts) (delete_where (in_thread_post i) ps).
Proof.
  intros H t Ht. apply delete_where_In in Ht. destruct Ht as [Ht Hi].
  unfold is_thread in Hi. apply Z.eqb_neq in Hi. specialize (H t Ht).
  rewrite !tally_delete_where; [exact H| |];
    intros r Hr; unfold in_thread_post in Hr; apply Z.eqb_eq in Hr;
    [now apply (initial_in_other i) | now apply (reply_in_other i)].
Qed.

Lemma acct_reply (i : Z) (thread : ThreadDB.t) (now : datetime)
    (p : PostDB.t) ts ps :
  find (is_thread i) ts = Some thread ->
  PostDB.thread_id p = i -> PostDB.is_initial_post p = false ->
  acct ts ps ->
  acct (update_where (is_thread i) (bump_replies thread now) ts) (ps ++ [p]).
Proof.
  intros E Hp Hinit H t Ht. unfold update_where in Ht.
  apply in_map_iff in Ht. destruct Ht as (t0 & <- & Ht0).
  destruct (H t0 Ht0) as [Hr Hi]. rewrite !tally_append.
  destruct (is_thread i t0) eqn:It.
  - unfold is_thread in It. apply Z.eqb_eq in It.
    apply find_some in E. destruct E as [Hthread Hid].
    unfold is_thread in Hid. apply Z.eqb_eq in Hid.
    destruct (H thread Hthread) as [Hr' _].
    cbn [bump_replies touch_thread ThreadDB.id ThreadDB.reply_count].
    rewrite It. rewrite Hid in Hr'. rewrite It in Hi.
    assert (R : reply_in i p = true)
      by (unfold reply_in, in_thread_post;
          now rewrite Hp, Z.eqb_refl, Hinit).
    assert (I : initial_in i p = false)
      by (unfold initial_in, in_thread_post;
          now rewrite Hp, Z.eqb_refl, Hinit).
    rewrite R, I. lia.
  - unfold is_thread in It. apply Z.eqb_neq in It.
    rewrite (reply_in_other i), (initial_in_other i); auto; lia.
Qed.

Lemma acct_new_thread (t : ThreadDB.t) (p : PostDB.t) ts ps :
  refs ts ps ->
  find (is_thread (ThreadDB.id t)) ts = None ->
  ThreadDB.reply_count t = 0 ->
  PostDB.thread_id p = ThreadDB.id t -> PostDB.is_initial_post p = true ->
  acct ts ps -> acct (ts ++ [t]) (ps ++ [p]).
Proof.
  intros Hrefs Hfresh Hcount Hp Hinit H t0 Ht0. rewrite !tally_append.
  apply in_app_or in Ht0. destruct Ht0 as [Ht0 | [<- | []]].
  - destruct (H t0 Ht0) as [Hr Hi].
    assert (Hne : ThreadDB.id t0 <> ThreadDB.id t).
    { intros Heq. assert (N := find_none _ _ Hfresh t0 Ht0).
      unfold is_thread in N. apply Z.eqb_neq in N. congruence. }
    rewrite (reply_in_other (ThreadDB.id t)),
      (initial_in_other (ThreadDB.id t)); auto; lia.
  - assert (Hnone : filter (in_thread_post (ThreadDB.id t)) ps = []).
    { destruct (filter _ ps) as [|x l] eqn:E; [reflexivity|].
      assert (Hx : In x (x :: l)) by (left; reflexivity).
      rewrite <- E in Hx. apply filter_In in Hx. destruct Hx as [Hx Hxt].
      unfold in_thread_post in Hxt. apply Z.eqb_eq in Hxt.
      unfold refs in Hrefs. rewrite Forall_forall in Hrefs.
      specialize (Hrefs x Hx). rewrite Hxt in Hrefs.
      apply existsb_exists in Hrefs. destruct Hrefs as (t1 & Hin & Hid).
      rewrite (find_none _ _ Hfresh t1 Hin) in Hid. discriminate. }
    rewrite (tally_none (reply_in (ThreadDB.id t)) ps),
      (tally_none (initial_in (ThreadDB.id t)) ps).
    + assert (R : reply_in (ThreadDB.id t) p = false)
        by (unfold reply_in, in_thread_post;
            now rewrite Hp, Z.eqb_refl, Hinit).
      assert (I : initial_in (ThreadDB.id t) p = true)
        by (unfold initial_in, in_thread_post;
            now rewrite Hp, Z.eqb_refl, Hinit).
      rewrite R, I. lia.
    + eapply filter_narrower; [|exact Hnone].
      unfold initial_in. intros r Hr. now apply andb_true_iff in Hr.
    + eapply filter_narrower; [|exact Hnone].
      unfold reply_in. intros r Hr. now apply andb_true_iff in Hr.
Qed.

Lemma app_keeps_account (now : datetime) (r : Request) (st : Store) :
  is_delete_post r = false ->
  threads_account_for_posts st ->
  threads_account_for_posts (snd (app now r st)).
Proof.
  intros Hr [Hrefs H]. split; [now apply app_keeps_posts_referencing|].
  apply posts_reference_threads_refs in Hrefs.
  destruct r; try discriminate Hr; clear Hr;
    route_cases; cbn [snd threads posts]; try exact H;
    name_found_rows.
  all: first
         [ apply acct_update_threads; [intros; split; reflexivity | exact H]
         | apply acct_update_posts; [intros; split; reflexivity | exact H]
         | apply acct_cascade; exact H
         | apply acct_reply; solve [assumption | reflexivity]
         | apply acct_new_thread;
           solve [assumption | reflexivity | apply next_thread_id_fresh] ].
Qed.

(** Starting from a database where every thread row counts its replies and
    has one initial post (the empty database is one), and as long as no
    post is deleted, every served request keeps it so: reply_count is the
    number of the thread's posts that are not its initial post, and each
    thread has exactly one initial post. *)
Theorem reply_count_counts_replies (rs : list (datetime * Request))
    (st : Store) :
  forallb (fun r => negb (is_delete_post (snd r))) rs = true ->
  threads_account_for_posts st ->
  threads_account_for_posts (serve rs st).
Proof.
  revert st. induction rs as [|r rs IH]; intros st Hrs H; simpl; [exact H|].
  simpl in Hrs. apply andb_true_iff in Hrs. destruct Hrs as [Hr Hrs].
  apply IH; [exact Hrs|]. apply app_keeps_account; [|exact H].
  now apply negb_true_iff.
Qed.

Lemma reply_count_counts_replies_witness :
  threads_account_for_posts empty_store
  /\ threads_account_for_posts
       (serve [(5, POST_threads "Hello" "alice" "First post" None);
               (6, POST_system_thread_posts 1 (PostCreate.mk "hi" None));
               (7, POST_thread_posts 1 "there" None);
               (8, GET_post 2)] empty_store)
  /\ option_map ThreadDB.reply_count
       (first_thread 1
          (serve [(5, POST_threads "Hello" "alice" "First post" None);
                  (6, POST_system_thread_posts 1 (PostCreate.mk "hi" None));
                  (7, POST_thread_posts 1 "there" None);
                  (8, GET_post 2)] empty_store))
     = Some 2.
Proof.
  assert (H : threads_account_for_posts empty_store).
  { split; [intros p [] | intros t []]. }
  split; [exact H|]. split; [|reflexivity].
  exact (reply_count_counts_replies
           [(5, POST_threads "Hello" "alice" "First post" None);
            (6, POST_system_thread_posts 1 (PostCreate.mk "hi" None));
            (7, POST_thread_posts 1 "there" None);
            (8, GET_post 2)] empty_store eq_refl H).
Defined.

(** Deleting a reply is what breaks the count: the thread keeps the
    reply_count it had while one reply fewer is stored. *)
Theorem delete_post_breaks_reply_count (now : datetime) (post_id : Z)
    (st : Store) (p : PostDB.t) (t : ThreadDB.t) :
  unique_keys st ->
  threads_account_for_posts st ->
  first_post post_id st = Some p ->
  PostDB.is_initial_post p = false ->
  first_thread (PostDB.thread_id p) st = Some t ->
  exists st' t',
    app now (DELETE_post post_id) st = (Ok (JMessage "Post deleted"), st')
    /\ first_thread (PostDB.thread_id p) st' = Some t'
    /\ ThreadDB.reply_count t'
       = tally (reply_in (PostDB.thread_id p)) (posts st') + 1.
Proof.
  intros (_ & Hu & _) [_ Hacct] E Hinit Et.
  pose proof (first_post_id _ _ _ E) as Hid. unfold first_post in E.
  eexists. exists t. split; [|split].
  - unfold_route. rewrite E. unfold_route. rewrite Hid. reflexivity.
  - exact Et.
  - cbn [posts].
    assert (Hin : In t (threads st)) by (apply find_some in Et; tauto).
    pose proof (first_thread_id _ _ _ Et) as Htid.
    destruct (Hacct t Hin) as [Hr _]. rewrite Hr, Htid.
    clear - Hu E Hinit. unfold tally, delete_where.
    induction (posts st) as [|a l IH]; simpl in *; [discriminate|].
    inversion Hu as [|? ? Ha Hl]; subst.
    destruct (is_post post_id a) eqn:Ia.
    + injection E as ->. simpl.
      assert (R : reply_in (PostDB.thread_id p) p = true).
      { unfold reply_in, in_thread_post. now rewrite Z.eqb_refl, Hinit. }
      rewrite R. simpl.
      assert (F : filter (fun r => negb (is_post post_id r)) l = l).
      { clear - Ha Ia. unfold is_post in Ia. apply Z.eqb_eq in Ia.
        induction l as [|b l IH]; simpl in *; [reflexivity|].
        assert (Hb : is_post post_id b = false).
        { unfold is_post. apply Z.eqb_neq. intros Hb. apply Ha.
          left. congruence. }
        rewrite Hb. simpl. f_equal. apply IH. tauto. }
      rewrite F. lia.
    + simpl. destruct (reply_in (PostDB.thread_id p) a); simpl;
        specialize (IH Hl E); lia.
Qed.

Lemma delete_post_breaks_reply_count_witness :
  exists st' t',
    app 9 (DELETE_post 2)
      (serve [(5, POST_threads "Hello" "alice" "First post" None);
              (6, POST_system_thread_posts 1 (PostCreate.mk "hi" None))]
         empty_store)
    = (Ok (JMessage "Post deleted"), st')
    /\ first_thread 1 st' = Some t'
    /\ ThreadDB.reply_count t' = 1
    /\ tally (reply_in 1) (posts st') = 0.
Proof.
  set (st := serve [(5, POST_threads "Hello" "alice" "First post" None);
                    (6, POST_system_thread_posts 1 (PostCreate.mk "hi" None))]
               empty_store).
  assert (Hu : unique_keys st).
  { repeat split; simpl; repeat constructor; simpl; intuition discriminate. }
  assert (Ha : threads_account_for_posts st).
  { split.
    - intros p [<- | [<- | []]]; reflexivity.
    - intros t [<- | []]. split; reflexivity. }
  destruct (delete_post_breaks_reply_count 9 2 st
              (PostDB.mk 2 "system" 1 "hi" 6 None false false 0 None false)
              (ThreadDB.mk 1 "Hello" 5 6 6 "alice" 0 1)
              Hu Ha eq_refl eq_refl eq_refl)
    as (st' & t' & Happ & Ht & Hc).
  exists st', t'. split; [exact Happ|]. split; [exact Ht|].
  injection Happ as <-. injection Ht as <-. split; reflexivity.
Defined.

(** ** Startup *)






Lemma seed_each_run (now : datetime) (l : list post_data.t) (s : Session) :
  exists ts ps,
    seed_each now l s
    = (Ok tt,
       {| committed := committed s;
          pending := {| threads := threads (pending s) ++ ts;
                        posts := posts (pending s) ++ ps;
                        documents := documents (pending s) |} |})
    /\ List.length ts = List.length l
    /\ List.length ps = List.length l
    /\ Forall (fun t => ThreadDB.creator t = "system"%string
                        /\ ThreadDB.reply_count t = 0) ts
    /\ Forall (fun p => PostDB.is_initial_post p = true) ps.
Proof.
  revert s. induction l as [|x l IH]; intros s.
  - exists [], []. simpl. unfold ret. rewrite !app_nil_r.
    destruct s as [c [ts ps ds]]. repeat split; constructor.
  - simpl. unfold seed. unfold_route.
    match goal with
    | |- context [seed_each now l ?s'] => destruct (IH s')
        as (ts & ps & Hrun & Hts & Hps & Ft & Fp); rewrite Hrun
    end.
    cbn [committed pending threads posts documents].
    eexists (_ :: ts), (_ :: ps).
    rewrite <- !app_assoc. cbn [app]. split; [reflexivity|].
    simpl. repeat split; try lia; constructor; auto.
Qed.

(** Startup seeds only a database without threads and without posts, and
    with the seed list the source ships it changes no database at all; so a
    second startup, with whatever seed list, leaves what the first one left.
    When it does seed, every seed gives one thread, created by "system" with
    no reply counted, and one initial post. *)
Theorem init_db_seeds_once (seeds : list post_data.t) (now now' : datetime)
    (st : Store) :
  init_db seeds now' (init_db seeds now st) = init_db seeds now st
  /\ init_db INITIAL_POSTS now st = st
  /\ (threads st <> [] \/ posts st <> [] -> init_db seeds now st = st)
  /\ (threads st = [] -> posts st = [] ->
      exists ts ps,
        init_db seeds now st
        = {| threads := ts; posts := ps; documents := documents st |}
        /\ List.length ts = List.length seeds
        /\ List.length ps = List.length seeds
        /\ Forall (fun t => ThreadDB.creator t = "system"%string
                            /\ ThreadDB.reply_count t = 0) ts
        /\ Forall (fun p => PostDB.is_initial_post p = true) ps).
Proof.
  assert (Hskip : forall l c db,
             threads db <> [] \/ posts db <> [] -> init_db l c db = db).
  { intros l c db H. unfold init_db. unfold_route.
    destruct (threads db) as [|t ts] eqn:Et, (posts db) as [|p ps] eqn:Ep;
      simpl; try reflexivity.
    destruct H as [H | H]; now elim H. }
  assert (Hempty : forall l c db,
             threads db = [] -> posts db = [] ->
             exists ts ps,
               init_db l c db
               = {| threads := ts; posts := ps; documents := documents db |}
               /\ List.length ts = List.length l
               /\ List.length ps = List.length l
               /\ Forall (fun t => ThreadDB.creator t = "system"%string
                                   /\ ThreadDB.reply_count t = 0) ts
               /\ Forall (fun p => PostDB.is_initial_post p = true) ps).
  { intros l c db Et Ep. unfold init_db. unfold_route.
    rewrite Et, Ep. simpl.
    destruct (seed_each_run c l (open_session db))
      as (ts & ps & Hrun & Hts & Hps & Ft & Fp).
    unfold open_session in Hrun. rewrite Hrun.
    cbn [snd committed pending threads posts documents].
    rewrite Et, Ep. simpl. exists ts, ps. repeat split; assumption. }
  split; [|split; [|split]].
  - destruct (threads st) as [|t ts] eqn:Et.
    + destruct (posts st) as [|p ps] eqn:Ep.
      * destruct (Hempty seeds now st Et Ep) as (ts & ps & -> & Hts & _).
        destruct seeds as [|x seeds].
        -- destruct ts; [|discriminate]. unfold init_db. unfold_route.
           simpl. destruct ps; reflexivity.
        -- apply Hskip. left. cbn [threads].
           destruct ts; [discriminate|]. discriminate.
      * rewrite (Hskip seeds now st) by (right; rewrite Ep; discriminate).
        apply Hskip. right. rewrite Ep. discriminate.
    + rewrite (Hskip seeds now st) by (left; rewrite Et; discriminate).
      apply Hskip. left. rewrite Et. discriminate.
  - unfold init_db, INITIAL_POSTS. unfold_route.
    destruct (threads st), (posts st); reflexivity.
  - apply Hskip.
  - apply Hempty.
Qed.

Lemma init_db_seeds_once_witness :
  init_db [post_data.mk "Welcome" "system" None;
           post_data.mk "Rules" "admin" None] 1 empty_store
  = {| threads := [ThreadDB.mk 1 "Welcome" 1 1 1 "system" 0 0;
                   ThreadDB.mk 2 "Rules" 1 1 1 "system" 0 0];
       posts := [PostDB.mk 1 "system" 1 "Welcome" 1 None false false 0 None
                   true;
                 PostDB.mk 2 "admin" 2 "Rules" 1 None false false 0 None
                   true];
       documents := [] |}
  /\ init_db [post_data.mk "Welcome" "system" None;
              post_data.mk "Rules" "admin" None] 2
       (init_db [post_data.mk "Welcome" "system" None;
                 post_data.mk "Rules" "admin" None] 1 empty_store)
     = init_db [post_data.mk "Welcome" "system" None;
                post_data.mk "Rules" "admin" None] 1 empty_store.
Proof.
  split; [reflexivity|].
  exact (proj1 (init_db_seeds_once
                  [post_data.mk "Welcome" "system" None;
                   post_data.mk "Rules" "admin" None] 1 2 empty_store)).
Defined.

(** ** Stored rows at work

    Each statement above that speaks of a stored row, run on a database that
    holds one. *)

Lemma delete_thread_removes_posts_and_documents_witness :
  (exists row, In row (threads forum_with_document) /\ ThreadDB.id row = 1)
  /\ posts forum_with_document <> []
  /\ documents forum_with_document <> []
  /\ exists st',
      app 9 (DELETE_thread 1) forum_with_document
      = (Ok (JMessage "Thread deleted"), st')
      /\ (forall t, ~ In t (threads st'))
      /\ (forall p, ~ In p (posts st'))
      /\ (forall d, ~ In d (documents st')).
Proof.
  assert (Hrow : exists row,
             In row (threads forum_with_document) /\ ThreadDB.id row = 1).
  { eexists. split; [left; reflexivity | reflexivity]. }
  split; [exact Hrow|]. split; [discriminate|]. split; [discriminate|].
  destruct (proj1 (delete_thread_removes_posts_and_documents 9 1
                     forum_with_document) Hrow)
    as (thread & _ & _ & _ & st' & Happ & _ & Ht & Hp & Hd).
  exists st'. split; [exact Happ|]. split; [|split].
  - intros t Hin. apply Ht in Hin. destruct Hin as [[<- | []] Hne].
    now apply Hne.
  - intros p Hin. apply Hp in Hin. destruct Hin as [[<- | []] Hne].
    now apply Hne.
  - intros d Hin. apply Hd in Hin. destruct Hin as [[<- | []] Hne].
    now apply Hne.
Defined.


Lemma update_post_overwrites_and_marks_edited_witness :
  (exists row, In row (posts forum_with_image) /\ PostDB.id row = 1)
  /\ exists post' st',
      app 9
        (PUT_post 1 (PostCreate.mk "edited" (Some "/uploads/dog.png"%string)))
        forum_with_image
      = (Ok (JPost post'), st')
      /\ first_post 1 st' = Some post'
      /\ PostDB.text post' = "edited"%string
      /\ PostDB.image post' = Some "/uploads/dog.png"%string
      /\ PostDB.edited post' = true.
Proof.
  assert (Hrow : exists row,
             In row (posts forum_with_image) /\ PostDB.id row = 1).
  { eexists. split; [left; reflexivity | reflexivity]. }
  split; [exact Hrow|].
  destruct (proj1 (update_post_overwrites_and_marks_edited 9 1
                     (PostCreate.mk "edited" (Some "/uploads/dog.png"%string))
                     forum_with_image) Hrow)
    as (post & _ & _ & _ & post' & st' & Happ & Hst' & Ht & Hi & He & _).
  exists post', st'. repeat split; assumption.
Defined.

Lemma get_post_counts_view_and_marks_seen_witness :
  (exists row, In row (posts forum_hello) /\ PostDB.id row = 1)
  /\ exists post' st',
      app 9 (GET_post 1) forum_hello = (Ok (JPost post'), st')
      /\ first_post 1 st' = Some post'
      /\ PostDB.view_count post' = 1
      /\ PostDB.seen post' = true
      /\ PostDB.last_viewed post' = Some 9.
Proof.
  assert (Hrow : exists row,
             In row (posts forum_hello) /\ PostDB.id row = 1).
  { eexists. split; [left; reflexivity | reflexivity]. }
  split; [exact Hrow|].
  destruct (proj1 (get_post_counts_view_and_marks_seen 9 1 forum_hello) Hrow)
    as (post & _ & _ & Hfound & post' & st' & Happ & Hst' & Hv & Hs & Hl & _).
  injection Hfound as <-.
  exists post', st'. repeat split; assumption.
Defined.

Lemma get_document_counts_view_witness :
  (exists row,
      In row (documents forum_with_document)
      /\ DocumentDB.id row = "doc-1"%string)
  /\ exists d st',
      app 9 (GET_document "doc-1") forum_with_document
      = (Ok (JDocument d), st')
      /\ first_document "doc-1" st' = Some d
      /\ DocumentDB.view_count d = 1
      /\ DocumentDB.last_viewed d = Some 9.
Proof.
  assert (Hrow : exists row,
             In row (documents forum_with_document)
             /\ DocumentDB.id row = "doc-1"%string).
  { eexists. split; [left; reflexivity | reflexivity]. }
  split; [exact Hrow|].
  destruct (proj1 (get_document_counts_view 9 "doc-1" forum_with_document)
              Hrow)
    as (doc & _ & _ & Hfound & d & st' & Happ & Hst' & Hv & Hl & _).
  injection Hfound as <-.
  exists d, st'. repeat split; assumption.
Defined.

Lemma update_document_replaces_payload_fields_witness :
  (exists row,
      In row (documents forum_with_document)
      /\ DocumentDB.id row = "doc-1"%string)
  /\ exists d st',
      app 9 (PUT_document "doc-1" grid_document) forum_with_document
      = (Ok (JDocument d), st')
      /\ first_document "doc-1" st' = Some d
      /\ DocumentDB.title d = "table"%string
      /\ DocumentDB.content d = ContentGrid grid_2x3
      /\ DocumentDB.view_count d = 0.
Proof.
  assert (Hrow : exists row,
             In row (documents forum_with_document)
             /\ DocumentDB.id row = "doc-1"%string).
  { eexists. split; [left; reflexivity | reflexivity]. }
  split; [exact Hrow|].
  destruct (proj1 (update_document_replaces_payload_fields 9 "doc-1"
                     grid_document forum_with_document) Hrow)
    as (doc & _ & _ & Hfound & d & st' & Happ & Hst' & _ & _ & Hti & Hc & _
        & _ & Hv & _).
  injection Hfound as <-.
  exists d, st'. repeat split; assumption.
Defined.

Lemma delete_post_leaves_reply_count_witness :
  (exists row, In row (posts forum_hello) /\ PostDB.id row = 1)
  /\ exists st',
      app 9 (DELETE_post 1) forum_hello = (Ok (JMessage "Post deleted"), st')
      /\ (forall p, ~ In p (posts st'))
      /\ threads st' = threads forum_hello.
Proof.
  assert (Hrow : exists row,
             In row (posts forum_hello) /\ PostDB.id row = 1).
  { eexists. split; [left; reflexivity | reflexivity]. }
  split; [exact Hrow|].
  destruct (proj1 (delete_post_leaves_reply_count 9 1 forum_hello) Hrow)
    as (post & _ & _ & _ & st' & Happ & _ & Hp & Ht & _).
  exists st'. split; [exact Happ|]. split; [|exact Ht].
  intros p Hin. apply Hp in Hin. destruct Hin as [[<- | []] Hne].
  now apply Hne.
Defined.

Lemma delete_document_removes_only_it_witness :
  (exists row,
      In row (documents forum_with_document)
      /\ DocumentDB.id row = "doc-1"%string)
  /\ exists st',
      app 9 (DELETE_document "doc-1") forum_with_document
      = (Ok (JMessage "Document deleted"), st')
      /\ (forall d, ~ In d (documents st'))
      /\ posts st' = posts forum_with_document.
Proof.
  assert (Hrow : exists row,
             In row (documents forum_with_document)
             /\ DocumentDB.id row = "doc-1"%string).
  { eexists. split; [left; reflexivity | reflexivity]. }
  split; [exact Hrow|].
  destruct (proj1 (delete_document_removes_only_it 9 "doc-1"
                     forum_with_document) Hrow)
    as (doc & _ & _ & _ & st' & Happ & _ & Hd & _ & Hp).
  exists st'. split; [exact Happ|]. split; [|exact Hp].
  intros d Hin. apply Hd in Hin. destruct Hin as [[<- | []] Hne].
  now apply Hne.
Defined.
